(** * grounded-git-mcp: the confirmation store ([core/confirmations.py])

    A shallow embedding of the approval-token model, its durable store and
    its command fingerprints, followed by the properties proved about them.

    Conventions of the embedding.
    - A Python [str] is represented by the bytes of its UTF-8 encoding, as a
      Rocq [string]; [s.encode("utf-8")] is then the list of those bytes.
      Joining with a newline and slicing a hexadecimal digest act the same
      on code points and on UTF-8 bytes.
    - A Python [int] is a [Z].
    - [_now()] reads the wall clock: every function that calls it takes the
      value it read as an explicit argument [now].
    - The two files of the store are represented by what they hold: the
      durable map by the dictionary [json.loads] returns for its text, the
      audit log by the list of its lines. *)

From Stdlib Require Import ZArith List Ascii String Lia Bool DecimalString.
From Stdlib Require Import DecimalPos DecimalZ.
From stdpp Require Import gmap strings list fin_maps.

Set Warnings "-register-all".
Local Open Scope Z_scope.

(** ** SHA-256 ([hashlib.sha256], FIPS 180-4) *)

Module Sha256.

Definition w32 (x : Z) : Z := x mod 2 ^ 32.
Definition add32 (x y : Z) : Z := w32 (x + y).
Definition not32 (x : Z) : Z := Z.lxor x 0xffffffff.
Definition rotr (n x : Z) : Z :=
  Z.lor (Z.shiftr x n) (w32 (Z.shiftl x (32 - n))).

Definition Ch (x y z : Z) : Z := Z.lxor (Z.land x y) (Z.land (not32 x) z).
Definition Maj (x y z : Z) : Z :=
  Z.lxor (Z.land x y) (Z.lxor (Z.land x z) (Z.land y z)).
Definition Sigma0 (x : Z) : Z :=
  Z.lxor (rotr 2 x) (Z.lxor (rotr 13 x) (rotr 22 x)).
Definition Sigma1 (x : Z) : Z :=
  Z.lxor (rotr 6 x) (Z.lxor (rotr 11 x) (rotr 25 x)).
Definition sigma0 (x : Z) : Z :=
  Z.lxor (rotr 7 x) (Z.lxor (rotr 18 x) (Z.shiftr x 3)).
Definition sigma1 (x : Z) : Z :=
  Z.lxor (rotr 17 x) (Z.lxor (rotr 19 x) (Z.shiftr x 10)).

(** The round constants are the first 32 bits of the fractional parts of
    the cube roots of the first 64 primes; the initial chaining value, of
    the square roots of the first 8. *)
Definition is_prime (n : Z) : bool :=
  (2 <=? n)
  && forallb (fun d => negb (n mod Z.of_nat d =? 0))
             (seq 2 (Z.to_nat (Z.sqrt n) - 1)).

Definition primes_upto (n : nat) : list Z :=
  List.filter is_prime (map Z.of_nat (seq 2 (n - 1))).

(** The largest [r] below [2 ^ bits] with [r ^ 3 <= n]. *)
Fixpoint cube_root (bits : nat) (n r : Z) : Z :=
  match bits with
  | O => r
  | S b =>
      let r' := r + 2 ^ Z.of_nat b in
      cube_root b n (if r' * r' * r' <=? n then r' else r)
  end.

Definition K : list Z :=
  Eval vm_compute in
    map (fun p => w32 (cube_root 40 (p * 2 ^ 96) 0)) (primes_upto 311).

(** The eight working variables, and the chaining value between blocks. *)
Record regs : Type := Regs { ra : Z; rb : Z; rc : Z; rd : Z;
                             re : Z; rf : Z; rg : Z; rh : Z }.

Definition frac_sqrt (p : Z) : Z := w32 (Z.sqrt (p * 2 ^ 64)).

Definition H0 : regs :=
  Eval vm_compute in
    Regs (frac_sqrt 2) (frac_sqrt 3) (frac_sqrt 5) (frac_sqrt 7)
         (frac_sqrt 11) (frac_sqrt 13) (frac_sqrt 17) (frac_sqrt 19).

(** Padding: a [0x80] byte, zero bytes up to 56 modulo 64, and the bit
    length as a big-endian 64-bit integer. *)
Definition be_bytes (n : nat) (x : Z) : list Z :=
  map (fun i => Z.shiftr x (8 * Z.of_nat i) mod 256) (rev (seq 0 n)).

Definition pad (msg : list Z) : list Z :=
  let len := Z.of_nat (length msg) in
  msg ++ [0x80] ++ repeat 0 (Z.to_nat ((55 - len) mod 64))
      ++ be_bytes 8 (8 * len).

Fixpoint chunks {A} (size fuel : nat) (l : list A) : list (list A) :=
  match fuel, l with
  | _, [] => []
  | O, _ => []
  | S fuel', _ => firstn size l :: chunks size fuel' (skipn size l)
  end.

Definition be_word (bs : list Z) : Z :=
  fold_left (fun acc b => acc * 256 + b) bs 0.

Definition block_words (block : list Z) : list Z :=
  map be_word (chunks 4 16 block).

(** Message schedule: sixteen words of the block, then forty-eight derived
    ones. *)
Fixpoint extend (n : nat) (ws : list Z) : list Z :=
  match n with
  | O => ws
  | S n' =>
      let i := length ws in
      let at_ k := nth (i - k) ws 0 in
      extend n' (ws ++ [add32 (add32 (sigma1 (at_ 2%nat)) (at_ 7%nat))
                              (add32 (sigma0 (at_ 15%nat)) (at_ 16%nat))])
  end.

Definition schedule (block : list Z) : list Z :=
  extend 48 (block_words block).

Definition round (r : regs) (kw : Z * Z) : regs :=
  let t1 := add32 (add32 (add32 (rh r) (Sigma1 (re r)))
                         (add32 (Ch (re r) (rf r) (rg r)) (fst kw)))
                  (snd kw) in
  let t2 := add32 (Sigma0 (ra r)) (Maj (ra r) (rb r) (rc r)) in
  Regs (add32 t1 t2) (ra r) (rb r) (rc r)
       (add32 (rd r) t1) (re r) (rf r) (rg r).

Definition compress (h : regs) (block : list Z) : regs :=
  let r := fold_left round (combine K (schedule block)) h in
  Regs (add32 (ra h) (ra r)) (add32 (rb h) (rb r))
       (add32 (rc h) (rc r)) (add32 (rd h) (rd r))
       (add32 (re h) (re r)) (add32 (rf h) (rf r))
       (add32 (rg h) (rg r)) (add32 (rh h) (rh r)).

Definition digest (msg : list Z) : regs :=
  let padded := pad msg in
  fold_left compress (chunks 64 (length padded) padded) H0.

(** Lower-case hexadecimal rendering, eight digits per word. *)
Definition hex_digit (x : Z) : ascii :=
  nth (Z.to_nat (x mod 16))
      (list_ascii_of_string "0123456789abcdef") "0"%char.

Definition hex8 (x : Z) (rest : string) : string :=
  String (hex_digit (Z.shiftr x 28)) (String (hex_digit (Z.shiftr x 24))
 (String (hex_digit (Z.shiftr x 20)) (String (hex_digit (Z.shiftr x 16))
 (String (hex_digit (Z.shiftr x 12)) (String (hex_digit (Z.shiftr x 8))
 (String (hex_digit (Z.shiftr x 4))  (String (hex_digit x) rest))))))).

Definition hex_of_regs (r : regs) : string :=
  hex8 (ra r) (hex8 (rb r) (hex8 (rc r) (hex8 (rd r)
 (hex8 (re r) (hex8 (rf r) (hex8 (rg r) (hex8 (rh r) EmptyString))))))).

Definition bytes_of_string (s : string) : list Z :=
  map (fun a => Z.of_N (N_of_ascii a)) (list_ascii_of_string s).

Definition hexdigest (s : string) : string :=
  hex_of_regs (digest (bytes_of_string s)).

End Sha256.

(** ** Python values

    The values [json.loads] returns (and [json.dumps] accepts), numbers
    being integers: the store writes no others.  A [dict] keeps its keys in
    insertion order.  The payloads annotated [dict[str, Any]] (a record's
    classification, the result of an execution) are such values: they reach
    the store through [json.dumps]. *)

Inductive json : Type :=
  | JNull
  | JBool (b : bool)
  | JInt (n : Z)
  | JStr (s : string)
  | JList (l : list json)
  | JDict (d : list (string * json)).

Abbreviation pydict := (list (string * json)).

Inductive exn : Type := AttributeError | TypeError | ValueError.

(** What a call does: it returns, it raises, or it builds an object with a
    field outside its annotation ([IllTyped]: Python checks no annotation at
    run time; the typed records below cannot hold such an object). *)
Inductive outcome (A : Type) : Type :=
  | Returned (a : A)
  | Raised (e : exn)
  | IllTyped.
Arguments Returned {A} a.
Arguments Raised {A} e.
Arguments IllTyped {A}.

Definition obind {A B} (m : outcome A) (f : A -> outcome B) : outcome B :=
  match m with
  | Returned a => f a
  | Raised e => Raised e
  | IllTyped => IllTyped
  end.

Notation "'do' x <- m ; f" := (obind m (fun x => f))
  (at level 10, x name, m at level 100, f at level 200,
   format "'[' 'do'  x  <-  m ; '/' f ']'").

(** [bool(v)], as [not v] and [v or w] use it. *)
Definition py_truthy (v : json) : bool :=
  match v with
  | JNull => false
  | JBool b => b
  | JInt n => negb (n =? 0)
  | JStr s => negb (String.eqb s EmptyString)
  | JList l => match l with [] => false | _ => true end
  | JDict d => match d with [] => false | _ => true end
  end.

Definition py_or (v w : json) : json := if py_truthy v then v else w.

(** [d.get(k)] on the association list of a dict. *)
Fixpoint dict_get (k : string) (d : pydict) : option json :=
  match d with
  | [] => None
  | (k', v) :: d' => if String.eqb k k' then Some v else dict_get k d'
  end.

(** [d[k] = v]: an existing key keeps its place, a new one goes last. *)
Fixpoint dict_set (k : string) (v : json) (d : pydict) : pydict :=
  match d with
  | [] => [(k, v)]
  | (k', v') :: d' =>
      if String.eqb k k' then (k', v) :: d' else (k', v') :: dict_set k v d'
  end.

(** The dict display that unpacks [d], then [extra], into a new dict. *)
Definition dict_update (d extra : pydict) : pydict :=
  fold_left (fun acc kv => dict_set (fst kv) (snd kv) acc) extra d.

Definition dict_has (k : string) (d : pydict) : bool :=
  match dict_get k d with Some _ => true | None => false end.

Definition mem_str (k : string) (ks : list string) : bool :=
  existsb (String.eqb k) ks.

(** ** The records *)

Record Preconditions : Type := {
  expected_head : option string;
  expected_branch : option string;
  require_clean : bool;
  require_no_conflicts : bool
}.

(** [Preconditions()]. *)
Definition default_Preconditions : Preconditions :=
  {| expected_head := None; expected_branch := None;
     require_clean := false; require_no_conflicts := true |}.

Record Confirmation : Type := {
  confirmation_id : string;
  root : string;
  args : list string;
  classification : pydict;
  cmd_hash : string;
  created_at : Z;
  expires_at : Z;
  max_uses : Z;
  used : Z;
  preconditions : Preconditions
}.

Definition is_expired (now : Z) (c : Confirmation) : bool :=
  now >? expires_at c.

Definition can_use (now : Z) (c : Confirmation) : bool :=
  negb (is_expired now c) && (used c <? max_uses c).

(** *** [dataclasses.asdict] *)

Definition json_of_opt_str (o : option string) : json :=
  match o with Some s => JStr s | None => JNull end.

Definition asdict_Preconditions (p : Preconditions) : pydict :=
  [ ("expected_head", json_of_opt_str (expected_head p));
    ("expected_branch", json_of_opt_str (expected_branch p));
    ("require_clean", JBool (require_clean p));
    ("require_no_conflicts", JBool (require_no_conflicts p)) ]%string.

Definition asdict (c : Confirmation) : pydict :=
  [ ("confirmation_id", JStr (confirmation_id c));
    ("root", JStr (root c));
    ("args", JList (map JStr (args c)));
    ("classification", JDict (classification c));
    ("cmd_hash", JStr (cmd_hash c));
    ("created_at", JInt (created_at c));
    ("expires_at", JInt (expires_at c));
    ("max_uses", JInt (max_uses c));
    ("used", JInt (used c));
    ("preconditions", JDict (asdict_Preconditions (preconditions c))) ]%string.

(** *** The constructors called with keyword arguments

    [Preconditions] and [Confirmation] called with the items of a dict as
    keyword arguments: a key that is no field, or a field without default
    that is missing, raises [TypeError]; a value is then read at the type
    its field is annotated with. *)

Definition as_str (v : json) : option string :=
  match v with JStr s => Some s | _ => None end.
Definition as_opt_str (v : json) : option (option string) :=
  match v with JNull => Some None | JStr s => Some (Some s) | _ => None end.
(** [bool] is a subclass of [int]: [True] and [False] are the integers 1
    and 0. *)
Definition as_int (v : json) : option Z :=
  match v with
  | JInt n => Some n
  | JBool b => Some (if b then 1 else 0)
  | _ => None
  end.
Definition as_bool (v : json) : option bool :=
  match v with JBool b => Some b | _ => None end.
Definition as_dict (v : json) : option pydict :=
  match v with JDict d => Some d | _ => None end.
Fixpoint as_strs (l : list json) : option (list string) :=
  match l with
  | [] => Some []
  | v :: l' =>
      match as_str v, as_strs l' with
      | Some s, Some ss => Some (s :: ss)
      | _, _ => None
      end
  end.
Definition as_str_list (v : json) : option (list string) :=
  match v with JList l => as_strs l | _ => None end.

(** A keyword argument read at its type; [dflt] is the field's default. *)
Definition kwarg {A} (dec : json -> option A) (dflt : option A)
    (k : string) (d : pydict) : option A :=
  match dict_get k d with
  | Some v => dec v
  | None => dflt
  end.

Definition Preconditions_fields : list string :=
  [ "expected_head"; "expected_branch"; "require_clean";
    "require_no_conflicts" ]%string.

Definition Preconditions_kwargs (d : pydict) : outcome Preconditions :=
  if forallb (fun kv => mem_str (fst kv) Preconditions_fields) d then
    match kwarg as_opt_str (Some None) "expected_head" d,
          kwarg as_opt_str (Some None) "expected_branch" d,
          kwarg as_bool (Some false) "require_clean" d,
          kwarg as_bool (Some true) "require_no_conflicts" d with
    | Some h, Some b, Some cl, Some nc =>
        Returned {| expected_head := h; expected_branch := b;
                    require_clean := cl; require_no_conflicts := nc |}
    | _, _, _, _ => IllTyped
    end
  else Raised TypeError.

Definition Confirmation_fields : list string :=
  [ "confirmation_id"; "root"; "args"; "classification"; "cmd_hash";
    "created_at"; "expires_at"; "max_uses"; "used"; "preconditions" ]%string.

Definition Confirmation_required : list string :=
  [ "confirmation_id"; "root"; "args"; "classification"; "cmd_hash";
    "created_at"; "expires_at" ]%string.

(** [Confirmation] on the items of [raw], once [raw["preconditions"]] holds
    the object [pre]: that key is present and is not read from [d] again. *)
Definition Confirmation_kwargs (d : pydict) (pre : Preconditions)
    : outcome Confirmation :=
  if forallb (fun kv => mem_str (fst kv) Confirmation_fields) d
     && forallb (fun k => dict_has k d) Confirmation_required then
    match kwarg as_str None "confirmation_id" d,
          kwarg as_str None "root" d,
          kwarg as_str_list None "args" d,
          kwarg as_dict None "classification" d,
          kwarg as_str None "cmd_hash" d with
    | Some i, Some r, Some a, Some cl, Some h =>
        match kwarg as_int None "created_at" d,
              kwarg as_int None "expires_at" d,
              kwarg as_int (Some 1) "max_uses" d,
              kwarg as_int (Some 0) "used" d with
        | Some ca, Some ea, Some mu, Some u =>
            Returned {| confirmation_id := i; root := r; args := a;
                        classification := cl; cmd_hash := h;
                        created_at := ca; expires_at := ea;
                        max_uses := mu; used := u; preconditions := pre |}
        | _, _, _, _ => IllTyped
        end
    | _, _, _, _, _ => IllTyped
    end
  else Raised TypeError.

(** ** Command fingerprints *)

Definition newline : string := String "010"%char EmptyString.

Definition _sha256_text (s : string) : string := Sha256.hexdigest s.

Definition _stable_cmd_text (args : list string) : string :=
  String.concat newline args.

Definition command_hash (args : list string) : string :=
  _sha256_text (_stable_cmd_text args).

(** [str(n)] for an integer, as the f-string renders [_now()]. *)
Definition py_str_of_int (n : Z) : string :=
  NilZero.string_of_int (Z.to_int n).

(** [resolved_root] is the text of [root.resolve()], which the file system
    decides. *)
Definition new_confirmation_id (resolved_root : string) (now : Z)
    (args : list string) : string :=
  let seed := String.append resolved_root
               (String.append newline
                 (String.append (py_str_of_int now)
                   (String.append newline (_stable_cmd_text args)))) in
  String.substring 0 16 (_sha256_text seed).

(** ** The store *)

Record FileConfirmationStore : Type := {
  _db : gmap string json;     (* confirmations.json *)
  _audit : list pydict        (* audit.jsonl, one object per line *)
}.

(** [FileConfirmationStore(repo_root)] on a repository that has no store
    yet: the map file is created holding the empty object, the log does not
    exist until its first line is appended. *)
Definition new_store : FileConfirmationStore := {| _db := ∅; _audit := [] |}.

Definition _load (s : FileConfirmationStore) : gmap string json := _db s.

(** The temporary file is written, then replaces the map file in one step:
    the map file holds the old text or the new one, nothing in between. *)
Definition _save (data : gmap string json) (s : FileConfirmationStore)
    : FileConfirmationStore :=
  {| _db := data; _audit := _audit s |}.

Definition audit_line (now : Z) (action confirmation_id : string)
    (extra : option pydict) : pydict :=
  dict_update
    [ ("ts", JInt now); ("action", JStr action);
      ("confirmation_id", JStr confirmation_id) ]%string
    (match extra with Some e => e | None => [] end).

Definition audit (now : Z) (action confirmation_id : string)
    (extra : option pydict) (s : FileConfirmationStore)
    : FileConfirmationStore :=
  {| _db := _db s;
     _audit := _audit s ++ [audit_line now action confirmation_id extra] |}.

Definition put (now : Z) (c : Confirmation) (s : FileConfirmationStore)
    : FileConfirmationStore :=
  let data := _load s in
  let data := <[confirmation_id c := JDict (asdict c)]> data in
  let s := _save data s in
  audit now "proposed" (confirmation_id c)
        (Some [("classification", JDict (classification c))]%string) s.

(** [data.get(k)]: [None] for a missing key. *)
Definition data_get (k : string) (data : gmap string json) : json :=
  match data !! k with Some v => v | None => JNull end.

Definition get (confirmation_id : string) (s : FileConfirmationStore)
    : outcome (option Confirmation) :=
  let data := _load s in
  let raw := data_get confirmation_id data in
  if negb (py_truthy raw) then Returned None
  else
    match raw with
    | JDict raw =>
        let p := match dict_get "preconditions" raw with
                 | Some v => v | None => JNull end in
        match py_or p (JDict []) with
        | JDict kw =>
            match Preconditions_kwargs kw with
            | Returned pre =>
                do c <- Confirmation_kwargs raw pre;
                Returned (Some c)
            | Raised e => Raised e
            | IllTyped =>
                (* the object is built all the same, and [Confirmation]
                   is called: it can still refuse the keys of [raw] *)
                do c <- Confirmation_kwargs raw default_Preconditions;
                IllTyped
            end
        | _ => Raised TypeError
        end
    | _ => Raised AttributeError
    end.

Section Calls.

(** [int(s)] for a [str]: the integer CPython parses from it, or [None]
    when it raises [ValueError]. *)
Variable int_of_str : string -> option Z.

Definition py_int (v : json) : outcome Z :=
  match v with
  | JInt n => Returned n
  | JBool b => Returned (if b then 1 else 0)
  | JStr s =>
      match int_of_str s with
      | Some n => Returned n
      | None => Raised ValueError
      end
  | JNull | JList _ | JDict _ => Raised TypeError
  end.

(** The store after the call, and how the call ended.  The exceptions are
    those the stored value causes: they are raised before [_save].  (That
    the file system fails, in [_save] or in [audit], is not modelled.) *)
Definition mark_used (now : Z) (c : Confirmation) (result : pydict)
    (s : FileConfirmationStore) : FileConfirmationStore * outcome unit :=
  let data := _load s in
  let raw := data_get (confirmation_id c) data in
  if negb (py_truthy raw) then (s, Returned tt)
  else
    match raw with
    | JDict raw =>
        let u := match dict_get "used" raw with
                 | Some v => v | None => JInt 0 end in
        match py_int u with
        | Returned n =>
            let raw := dict_set "used" (JInt (n + 1)) raw in
            let data := <[confirmation_id c := JDict raw]> data in
            let s := _save data s in
            (audit now "executed" (confirmation_id c)
                   (Some [("result", JDict result)]%string) s,
             Returned tt)
        | Raised e => (s, Raised e)
        | IllTyped => (s, IllTyped)
        end
    | _ => (s, Raised AttributeError)
    end.

(** *** Sequences of calls on one store *)

Inductive op : Type :=
  | Put (now : Z) (c : Confirmation)
  | Get (confirmation_id : string)
  | MarkUsed (now : Z) (c : Confirmation) (result : pydict)
  | Audit (now : Z) (action confirmation_id : string)
          (extra : option pydict).

Definition exec (s : FileConfirmationStore) (o : op) : FileConfirmationStore :=
  match o with
  | Put now c => put now c s
  | Get _ => s
  | MarkUsed now c result => fst (mark_used now c result s)
  | Audit now action i extra => audit now action i extra s
  end.

Definition run (ops : list op) (s : FileConfirmationStore)
    : FileConfirmationStore :=
  fold_left exec ops s.

(** *** Calls cut short

    [put] and [mark_used] write the map file, then append to the log.  A
    process that stops between the two leaves the map of the completed
    call and the log as it was; one that stops before [_save] has
    replaced the map file leaves the store as it was. *)

Definition saved_not_audited (s s_done : FileConfirmationStore)
    : FileConfirmationStore :=
  {| _db := _db s_done; _audit := _audit s |}.

Inductive reachable : FileConfirmationStore -> Prop :=
  | reach_new : reachable new_store
  | reach_put now c s :
      reachable s -> reachable (put now c s)
  | reach_put_cut now c s :
      reachable s -> reachable (saved_not_audited s (put now c s))
  | reach_mark_used now c result s :
      reachable s -> reachable (fst (mark_used now c result s))
  | reach_mark_used_cut now c result s :
      reachable s ->
      reachable (saved_not_audited s (fst (mark_used now c result s))).

(** ** Vocabulary of the properties *)

Definition with_used (c : Confirmation) (u : Z) : Confirmation :=
  {| confirmation_id := confirmation_id c; root := root c; args := args c;
     classification := classification c; cmd_hash := cmd_hash c;
     created_at := created_at c; expires_at := expires_at c;
     max_uses := max_uses c; used := u;
     preconditions := preconditions c |}.

Definition executed_line (now : Z) (c : Confirmation) (result : pydict)
    : pydict :=
  audit_line now "executed" (confirmation_id c)
             (Some [("result", JDict result)]%string).

Definition proposed_line (now : Z) (c : Confirmation) : pydict :=
  audit_line now "proposed" (confirmation_id c)
             (Some [("classification", JDict (classification c))]%string).

Definition op_puts (i : string) (o : op) : bool :=
  match o with
  | Put _ c => String.eqb (confirmation_id c) i
  | _ => false
  end.

Definition op_marks (i : string) (o : op) : bool :=
  match o with
  | MarkUsed _ c _ => String.eqb (confirmation_id c) i
  | _ => false
  end.

Definition marks (i : string) (ops : list op) : Z :=
  Z.of_nat (length (List.filter (op_marks i) ops)).

Definition never_puts (i : string) (ops : list op) : Prop :=
  forallb (fun o => negb (op_puts i o)) ops = true.

(** The line a call appends when it appends one. *)
Definition op_line (o : op) : list pydict :=
  match o with
  | Put now c => [proposed_line now c]
  | MarkUsed now c result => [executed_line now c result]
  | Get _ => []
  | Audit now action i extra => [audit_line now action i extra]
  end.

Definition is_put (o : op) : bool :=
  match o with Put _ _ => true | _ => false end.

Definition is_mark_used (o : op) : bool :=
  match o with MarkUsed _ _ _ => true | _ => false end.

Definition calls_put (ops : list op) : nat :=
  length (List.filter is_put ops).

Definition calls_mark_used (ops : list op) : nat :=
  length (List.filter is_mark_used ops).

(** Calls of [put], [get] and [mark_used] only, every [mark_used] coming
    after a [put] of the same id ([known] lists the ids put so far). *)
Fixpoint follows_put (known : list string) (ops : list op) : bool :=
  match ops with
  | [] => true
  | Put _ c :: ops' => follows_put (confirmation_id c :: known) ops'
  | MarkUsed _ c _ :: ops' =>
      mem_str (confirmation_id c) known && follows_put known ops'
  | Get _ :: ops' => follows_put known ops'
  | Audit _ _ _ _ :: _ => false
  end.

(** Every value the calls store is the [asdict] of a record filed under
    its own id. *)
Definition stores_records (s : FileConfirmationStore) : Prop :=
  forall k v, _db s !! k = Some v ->
              exists c, v = JDict (asdict c) /\ confirmation_id c = k.

(** Every "proposed" line names a key of the map. *)
Definition proposals_recorded (s : FileConfirmationStore) : Prop :=
  forall line i,
    In line (_audit s) ->
    dict_get "action" line = Some (JStr "proposed") ->
    dict_get "confirmation_id" line = Some (JStr i) ->
    is_Some (_db s !! i).

(** Digits of a hexadecimal digest, and arguments free of the separator. *)
Definition hex_chars : list ascii := list_ascii_of_string "0123456789abcdef".

Definition is_hex_char (a : ascii) : bool := existsb (Ascii.eqb a) hex_chars.

Definition no_newline (s : string) : Prop :=
  ~ In "010"%char (list_ascii_of_string s).

Definition a_newline_b : string :=
  String.append "a" (String.append newline "b").

(** *** Sample records and call sequences

    A proposal of [git commit -m "a b"] bound to branch [main]. *)
Definition c0 : Confirmation :=
  {| confirmation_id := "abc";
     root := "/r";
     args := ["commit"; "-m"; "a b"]%string;
     classification := [("risk", JStr "high")]%string;
     cmd_hash := command_hash ["commit"; "-m"; "a b"]%string;
     created_at := 100;
     expires_at := 400;
     max_uses := 1;
     used := 0;
     preconditions :=
       {| expected_head := None; expected_branch := Some "main"%string;
          require_clean := true; require_no_conflicts := true |} |}.

(** Two proposals of that command for the same root in the same second,
    each under the id the code derives for it. *)
Definition c1 : Confirmation :=
  {| confirmation_id :=
       new_confirmation_id "/r" 1730000000 ["commit"; "-m"; "a b"]%string;
     root := "/r";
     args := ["commit"; "-m"; "a b"]%string;
     classification := [("risk", JStr "high")]%string;
     cmd_hash := command_hash ["commit"; "-m"; "a b"]%string;
     created_at := 1730000000;
     expires_at := 1730000300;
     max_uses := 1;
     used := 0;
     preconditions :=
       {| expected_head := None; expected_branch := None;
          require_clean := false; require_no_conflicts := true |} |}.

Definition c2 : Confirmation :=
  {| confirmation_id :=
       new_confirmation_id "/r" 1730000000 ["commit"; "-m"; "a b"]%string;
     root := "/r";
     args := ["commit"; "-m"; "a b"]%string;
     classification := [("risk", JStr "low")]%string;
     cmd_hash := command_hash ["commit"; "-m"; "a b"]%string;
     created_at := 1730000000;
     expires_at := 1730000300;
     max_uses := 1;
     used := 0;
     preconditions :=
       {| expected_head := None; expected_branch := Some "main"%string;
          require_clean := true; require_no_conflicts := true |} |}.

(** The sample runs read no text under ["used"]: any parser serves. *)
Definition no_int_of_str (_ : string) : option Z := None.

Definition s1 : FileConfirmationStore := put 100 c0 new_store.

Definition ops_propose_execute : list op :=
  [Put 100 c0; Get "abc"; MarkUsed 101 c0 [("exit_code", JInt 0)]%string].

Definition other : Confirmation :=
  {| confirmation_id := "other"; root := root c0; args := args c0;
     classification := classification c0; cmd_hash := cmd_hash c0;
     created_at := 102; expires_at := 402; max_uses := 1; used := 0;
     preconditions := preconditions c0 |}.

Definition ops_no_reput : list op :=
  [MarkUsed 101 c0 []; Get "abc"; Put 102 other;
   Audit 103 "note" "abc" None].

(** *** Records written without the optional fields

    The defaults of the dataclasses, and the items of a record that hold
    the fields without default. *)

Definition with_defaults (c : Confirmation) : Confirmation :=
  {| confirmation_id := confirmation_id c; root := root c; args := args c;
     classification := classification c; cmd_hash := cmd_hash c;
     created_at := created_at c; expires_at := expires_at c;
     max_uses := 1; used := 0;
     preconditions := default_Preconditions |}.

Definition required_items (c : Confirmation) : pydict :=
  firstn 7 (asdict c).

(** The text [new_confirmation_id] hashes. *)
Definition confirmation_seed (resolved_root : string) (now : Z)
    (args : list string) : string :=
  String.append resolved_root
    (String.append newline
       (String.append (py_str_of_int now)
          (String.append newline (_stable_cmd_text args)))).

(** The fixed fields of an audit line, before [extra] is unpacked. *)
Definition audit_fields (now : Z) (action confirmation_id : string)
    : pydict :=
  [ ("ts", JInt now); ("action", JStr action);
    ("confirmation_id", JStr confirmation_id) ]%string.

(** Every line names its action, its time and its id, and the id is a key
    of the map. *)
Definition line_recorded (s : FileConfirmationStore) (line : pydict) : Prop :=
  exists t i,
    dict_get "ts" line = Some (JInt t)
    /\ dict_get "confirmation_id" line = Some (JStr i)
    /\ (dict_get "action" line = Some (JStr "proposed")
        \/ dict_get "action" line = Some (JStr "executed"))
    /\ is_Some (_db s !! i).

(** *** Lines of tool output ([tools/common.py])

    [str.splitlines()] on the UTF-8 bytes of a text.  A line ends at a line
    feed, a carriage return (with the line feed that follows it, if any), a
    vertical tab, a form feed, a file, group or record separator, at U+0085
    (bytes [C2 85]) and at U+2028 and U+2029 (bytes [E2 80 A8] and
    [E2 80 A9]); a text that does not end at a boundary has a last line. *)

Definition byte_is (n : N) (a : ascii) : bool := N.eqb (N_of_ascii a) n.

(** The number of bytes of the line boundary [s] starts with, [0] when it
    starts with none. *)
Definition boundary_len (s : string) : nat :=
  match s with
  | EmptyString => 0
  | String c s' =>
      if byte_is 10 c || byte_is 11 c || byte_is 12 c
         || byte_is 28 c || byte_is 29 c || byte_is 30 c then 1
      else if byte_is 13 c then
        match s' with
        | String c' _ => if byte_is 10 c' then 2 else 1
        | EmptyString => 1
        end
      else if byte_is 194 c then
        match s' with
        | String c' _ => if byte_is 133 c' then 2 else 0
        | EmptyString => 0
        end
      else if byte_is 226 c then
        match s' with
        | String c' (String c'' _) =>
            if byte_is 128 c' && (byte_is 168 c'' || byte_is 169 c'')
            then 3 else 0
        | _ => 0
        end
      else 0
  end%nat.

Definition string_of_rev (cur : list ascii) : string :=
  string_of_list_ascii (rev cur).

(** [cur] holds the bytes of the current line, last first; [skip] counts
    the bytes of a boundary still to pass over. *)
Fixpoint splitlines_from (skip : nat) (cur : list ascii) (s : string)
    : list string :=
  match s with
  | EmptyString =>
      match cur with
      | [] => []
      | _ => [string_of_rev cur]
      end
  | String c s' =>
      match skip with
      | S k => splitlines_from k cur s'
      | O =>
          match boundary_len s with
          | O => splitlines_from 0 (c :: cur) s'
          | S k => string_of_rev cur :: splitlines_from k [] s'
          end
      end
  end.

Definition splitlines (s : string) : list string := splitlines_from 0 [] s.

(** The comprehension keeps the lines that are not [None]: all of them. *)
Definition clean_lines (s : string) : list string :=
  List.filter (fun ln => true) (splitlines s).

(** A byte that is a line boundary by itself, and a text in which no
    boundary starts. *)
Definition line_break_byte (a : ascii) : bool :=
  byte_is 10 a || byte_is 11 a || byte_is 12 a || byte_is 13 a
  || byte_is 28 a || byte_is 29 a || byte_is 30 a.

Fixpoint break_free (s : string) : bool :=
  match s with
  | EmptyString => true
  | String c s' => Nat.eqb (boundary_len s) 0 && break_free s'
  end.

(** Maps as another writer could have left them: an empty object, a
    number, a record without its optional fields, a record with a key
    that is no field. *)
Definition store_of (data : gmap string json) : FileConfirmationStore :=
  {| _db := data; _audit := [] |}.

Definition s_empty_object : FileConfirmationStore :=
  store_of {[ "abc"%string := JDict [] ]}.

Definition s_number : FileConfirmationStore :=
  store_of {[ "abc"%string := JInt 5 ]}.

Definition s_required_only : FileConfirmationStore :=
  store_of {[ "abc"%string := JDict (required_items c0) ]}.

(** The items of [c0] with a number where "preconditions" wants a
    boolean, and a key that is no field. *)
Definition extra_key_object : pydict :=
  dict_set "preconditions" (JDict [("require_clean", JInt 5)]%string)
           (asdict c0)
  ++ [("note", JStr "kept")]%string.

Definition s_extra_key : FileConfirmationStore :=
  store_of {[ "abc"%string := JDict extra_key_object ]}.

(** A record put with its one use already counted, and an [extra] that
    names a fixed field of the line. *)
Definition s_used : FileConfirmationStore :=
  put 100 (with_used c0 1) new_store.

Definition forged_extra : pydict := [("action", JStr "forged")]%string.

(** ** Properties *)

(** *** Dictionaries *)

Lemma dict_get_set k k' v d :
  dict_get k (dict_set k' v d)
  = if String.eqb k k' then Some v else dict_get k d.
Proof.
  induction d as [|[k0 v0] d IH]; simpl.
  - destruct (String.eqb_spec k k'); reflexivity.
  - destruct (String.eqb_spec k' k0) as [->|Hne]; simpl.
    + destruct (String.eqb_spec k k0); reflexivity.
    + rewrite IH. destruct (String.eqb_spec k k0) as [->|]; [|reflexivity].
      destruct (String.eqb_spec k0 k'); congruence.
Qed.

Lemma dict_set_keys (P : string -> bool) k v d :
  P k = true ->
  forallb (fun kv => P (fst kv)) d = true ->
  forallb (fun kv => P (fst kv)) (dict_set k v d) = true.
Proof.
  intros Hk. induction d as [|[k0 v0] d IH]; simpl.
  - rewrite Hk. reflexivity.
  - intros [H0 Hd]%andb_prop.
    destruct (String.eqb k k0); simpl in *; rewrite H0; auto.
Qed.

Lemma dict_has_set k k' v d :
  dict_has k d = true -> dict_has k (dict_set k' v d) = true.
Proof.
  unfold dict_has. rewrite dict_get_set.
  destruct (String.eqb k k'); auto.
Qed.

Lemma dict_set_not_nil k v d : dict_set k v d <> [].
Proof.
  destruct d as [|[k0 v0] d]; simpl; [discriminate|].
  destruct (String.eqb k k0); discriminate.
Qed.

Lemma as_strs_map_JStr l : as_strs (map JStr l) = Some l.
Proof. induction l as [|a l IH]; simpl; [|rewrite IH]; reflexivity. Qed.

(** *** Reading the map *)

Lemma get_lookup_ext i s s' : _db s !! i = _db s' !! i -> get i s = get i s'.
Proof. intros H. unfold get, _load, data_get. rewrite H. reflexivity. Qed.

Lemma Preconditions_kwargs_asdict p :
  Preconditions_kwargs (asdict_Preconditions p) = Returned p.
Proof. destruct p as [[h|] [b|] cl nc]; reflexivity. Qed.

Lemma Confirmation_kwargs_asdict c :
  Confirmation_kwargs (asdict c) (preconditions c) = Returned c.
Proof.
  destruct c; unfold Confirmation_kwargs, kwarg; simpl.
  rewrite as_strs_map_JStr. reflexivity.
Qed.

(** What [get] answers for a key under which [asdict c] is stored. *)
Lemma get_asdict i c s :
  _db s !! i = Some (JDict (asdict c)) -> get i s = Returned (Some c).
Proof.
  intros H. unfold get, _load, data_get. rewrite H. simpl.
  rewrite Preconditions_kwargs_asdict. simpl.
  rewrite Confirmation_kwargs_asdict. reflexivity.
Qed.

Lemma get_put now c s : get (confirmation_id c) (put now c s) = Returned (Some c).
Proof. apply get_asdict. simpl. apply lookup_insert_eq. Qed.

(** [get] returns a record only from a stored non-empty object. *)
Lemma get_Some_inv i s c :
  get i s = Returned (Some c) ->
  exists d kw pre,
    _db s !! i = Some (JDict d) /\ d <> [] /\
    py_or (match dict_get "preconditions" d with
           | Some v => v | None => JNull end) (JDict []) = JDict kw /\
    Preconditions_kwargs kw = Returned pre /\
    Confirmation_kwargs d pre = Returned c.
Proof.
  unfold get, _load, data_get.
  destruct (_db s !! i) as [raw|]; [|discriminate].
  destruct (py_truthy raw) eqn:Ht; [|discriminate]. simpl.
  destruct raw as [| | | | |d]; try discriminate.
  destruct (py_or _ _) as [| | | | |kw] eqn:Hp; try discriminate.
  destruct (Preconditions_kwargs kw) as [pre| |] eqn:Hpre; try discriminate;
    [|destruct (Confirmation_kwargs d default_Preconditions); discriminate].
  destruct (Confirmation_kwargs d pre) as [c'| |] eqn:Hc; try discriminate.
  simpl. intros [= <-]. exists d, kw, pre.
  repeat split; auto. intros ->. discriminate.
Qed.

Lemma Confirmation_kwargs_used d pre c :
  Confirmation_kwargs d pre = Returned c ->
  py_int (match dict_get "used" d with Some v => v | None => JInt 0 end)
  = Returned (used c).
Proof.
  unfold Confirmation_kwargs.
  destruct (_ && _); [|discriminate].
  repeat (match goal with
          | |- context [match kwarg ?dec ?dflt ?k d with _ => _ end] =>
              destruct (kwarg dec dflt k d) eqn:?; try discriminate
          end).
  intros [= <-]. simpl.
  match goal with H : kwarg as_int (Some 0) "used" d = _ |- _ =>
    unfold kwarg in H; destruct (dict_get "used" d) as [[]|];
    simpl in H; try discriminate; injection H as <-; reflexivity
  end.
Qed.

Lemma Confirmation_kwargs_set_used d pre c n :
  Confirmation_kwargs d pre = Returned c ->
  Confirmation_kwargs (dict_set "used" (JInt n) d) pre
  = Returned (with_used c n).
Proof.
  unfold Confirmation_kwargs.
  destruct (forallb _ d) eqn:Hk; [|discriminate].
  destruct (forallb _ Confirmation_required) eqn:Hr; [|discriminate].
  pose proof (dict_set_keys (fun k => mem_str k Confirmation_fields)
                "used" (JInt n) d eq_refl Hk) as Hk'.
  cbv beta in Hk'. rewrite Hk'.
  assert (forallb (fun k => dict_has k (dict_set "used" (JInt n) d))
            Confirmation_required = true) as ->.
  { rewrite forallb_forall in Hr |- *. intros k Hin.
    apply dict_has_set, Hr, Hin. }
  change (true && true) with true. cbv iota.
  unfold kwarg. rewrite !dict_get_set. simpl String.eqb. cbv iota.
  change (as_int (JInt n)) with (Some n).
  repeat (match goal with
          | |- context [match dict_get ?k d with _ => _ end] =>
              destruct (dict_get k d) as [?v|] eqn:?; try discriminate
          end);
  repeat (match goal with
          | |- context [match ?dec ?v with _ => _ end] =>
              destruct (dec v) eqn:?; try discriminate
          end);
  simpl; intros [= <-]; reflexivity.
Qed.

(** *** One call *)

Lemma get_after_set_used i s' d kw pre c n :
  d <> [] ->
  py_or (match dict_get "preconditions" d with
         | Some v => v | None => JNull end) (JDict []) = JDict kw ->
  Preconditions_kwargs kw = Returned pre ->
  Confirmation_kwargs d pre = Returned c ->
  _db s' !! i = Some (JDict (dict_set "used" (JInt n) d)) ->
  get i s' = Returned (Some (with_used c n)).
Proof.
  intros Hd Hkw Hpre Hc Hs'. unfold get, _load, data_get. rewrite Hs'.
  assert (py_truthy (JDict (dict_set "used" (JInt n) d)) = true) as ->.
  { simpl. pose proof (dict_set_not_nil "used" (JInt n) d).
    destruct (dict_set _ _ d); congruence. }
  simpl negb. cbv iota.
  rewrite dict_get_set. simpl String.eqb. cbv iota.
  rewrite Hkw, Hpre. simpl.
  rewrite (Confirmation_kwargs_set_used _ _ _ n Hc). reflexivity.
Qed.

(** [mark_used] on an id whose record [get] can read: the stored counter
    goes up by one, one line is appended, the call returns. *)
Lemma mark_used_stored now cx result s c :
  get (confirmation_id cx) s = Returned (Some c) ->
  get (confirmation_id cx) (fst (mark_used now cx result s))
  = Returned (Some (with_used c (used c + 1)))
  /\ _audit (fst (mark_used now cx result s))
     = _audit s ++ [executed_line now cx result]
  /\ snd (mark_used now cx result s) = Returned tt.
Proof.
  intros Hget.
  destruct (get_Some_inv _ _ _ Hget) as (d & kw & pre & Hl & Hd & Hkw & Hpre & Hc).
  unfold mark_used, _load, data_get. rewrite Hl.
  assert (py_truthy (JDict d) = true) as ->
    by (destruct d; [congruence|reflexivity]).
  simpl negb. cbv iota.
  rewrite (Confirmation_kwargs_used _ _ _ Hc). simpl.
  repeat split.
  eapply get_after_set_used; eauto. simpl. apply lookup_insert_eq.
Qed.

(** [mark_used] writes under no key but its record's. *)
Lemma mark_used_other now cx result s i :
  i <> confirmation_id cx ->
  _db (fst (mark_used now cx result s)) !! i = _db s !! i.
Proof.
  intros Hne. unfold mark_used, _load.
  destruct (negb _); [reflexivity|].
  destruct (data_get _ _); try reflexivity.
  destruct (py_int _); try reflexivity.
  simpl. apply lookup_insert_ne. congruence.
Qed.

Lemma put_other now c s i :
  i <> confirmation_id c -> _db (put now c s) !! i = _db s !! i.
Proof. intros Hne. simpl. apply lookup_insert_ne. congruence. Qed.

Lemma mark_used_absent now c result s :
  _db s !! confirmation_id c = None ->
  mark_used now c result s = (s, Returned tt).
Proof. intros H. unfold mark_used, _load, data_get. rewrite H. reflexivity. Qed.

(** Whatever branch it takes, [mark_used] only extends the log. *)
Lemma mark_used_audit now c result s :
  _audit (fst (mark_used now c result s)) = _audit s
  \/ _audit (fst (mark_used now c result s))
     = _audit s ++ [executed_line now c result].
Proof.
  unfold mark_used.
  destruct (negb _); [left; reflexivity|].
  destruct (data_get _ _); try (left; reflexivity).
  destruct (py_int _); try (left; reflexivity).
  right. reflexivity.
Qed.

(** *** Sequences of calls *)

Lemma with_used_with_used c u v : with_used (with_used c u) v = with_used c v.
Proof. reflexivity. Qed.

Lemma exec_get i c s o :
  op_puts i o = false ->
  get i s = Returned (Some c) ->
  get i (exec s o)
  = Returned (Some (with_used c (used c + (if op_marks i o then 1 else 0)))).
Proof.
  assert (Hid : with_used c (used c + 0) = c)
    by (destruct c; unfold with_used; simpl; f_equal; lia).
  intros Hp Hget.
  destruct o as [now c'|j|now c' result|now a j extra]; simpl in Hp |- *.
  - apply String.eqb_neq in Hp.
    rewrite Hid, <- Hget. apply get_lookup_ext, put_other. congruence.
  - rewrite Hid. exact Hget.
  - destruct (String.eqb_spec (confirmation_id c') i) as [<-|Hne].
    + apply mark_used_stored, Hget.
    + rewrite Hid, <- Hget. apply get_lookup_ext, mark_used_other. congruence.
  - rewrite Hid. exact Hget.
Qed.

(** Along calls that never [put] under [i] again, the record read under
    [i] changes in its counter only, which has grown by the number of
    [mark_used] calls made for [i]. *)
Lemma run_get ops : forall i c s,
  never_puts i ops ->
  get i s = Returned (Some c) ->
  get i (run ops s) = Returned (Some (with_used c (used c + marks i ops))).
Proof.
  unfold never_puts, marks, run.
  induction ops as [|o ops IH]; intros i c s Hn Hget; simpl.
  - rewrite Hget. f_equal. f_equal. destruct c; unfold with_used; simpl.
    f_equal. lia.
  - simpl in Hn. apply andb_prop in Hn as [Ho Hn].
    apply negb_true_iff in Ho.
    rewrite (IH i _ _ Hn (exec_get i c s o Ho Hget)).
    rewrite with_used_with_used. f_equal. f_equal. f_equal. simpl.
    destruct (op_marks i o); simpl length; lia.
Qed.

(** *** Eligibility *)

(** C2. [is_expired] holds exactly when the clock is strictly past
    [expires_at]; [can_use] holds exactly when the record is not expired
    and [used < max_uses]; so an expired record is never usable whatever
    [used] is, and a record with [used >= max_uses] is never usable
    whatever the clock says. *)
Theorem eligibility_predicates (now : Z) (c : Confirmation) :
  (is_expired now c = true <-> now > expires_at c)
  /\ (can_use now c = true
      <-> is_expired now c = false /\ used c < max_uses c)
  /\ (is_expired now c = true -> can_use now c = false)
  /\ (max_uses c <= used c -> can_use now c = false).
Proof.
  unfold can_use, is_expired.
  destruct (Z.gtb_spec now (expires_at c));
    destruct (Z.ltb_spec (used c) (max_uses c)); simpl;
    intuition (try congruence; try lia).
Qed.

(** *** One-shot tokens *)

(** C1 (as the code has it). A stored record with [max_uses = 1] and
    [used = 0]: after one [mark_used] for its id, [get] returns a record
    with [used >= max_uses], which [can_use] rejects at every clock value,
    and it stays so along every further sequence of calls that does not
    [put] a record under that id again ([put] replaces the record, its
    counter included).  Along such sequences a record, whatever its
    [max_uses], is usable only while its uses and the [mark_used] calls
    made for it stay below [max_uses]: it is exercised at most [max_uses]
    times. *)
Theorem one_shot_enforcement (i : string) (c : Confirmation)
    (s : FileConfirmationStore) :
  get i s = Returned (Some c) ->
  (max_uses c = 1 -> used c = 0 ->
   forall now cx result,
     confirmation_id cx = i ->
     let s' := fst (mark_used now cx result s) in
     (exists c', get i s' = Returned (Some c')
                 /\ max_uses c' <= used c'
                 /\ forall t, can_use t c' = false)
     /\ (forall ops, never_puts i ops ->
           exists c'', get i (run ops s') = Returned (Some c'')
                       /\ max_uses c'' <= used c''
                       /\ forall t, can_use t c'' = false))
  /\ (forall ops t, never_puts i ops ->
        exists c', get i (run ops s) = Returned (Some c')
                   /\ max_uses c' = max_uses c
                   /\ used c' = used c + marks i ops
                   /\ (can_use t c' = true ->
                       used c + marks i ops < max_uses c)).
Proof.
  intros Hget. split.
  - intros Hmax Hused now cx result <- s'.
    destruct (mark_used_stored now cx result s c Hget) as (Hget' & _ & _).
    fold s' in Hget'.
    assert (Hdead : forall n, 0 <= n ->
              max_uses (with_used c (used c + 1 + n))
              <= used (with_used c (used c + 1 + n))
              /\ forall t, can_use t (with_used c (used c + 1 + n)) = false).
    { intros n Hn. simpl. split; [lia|]. intros t. unfold can_use. simpl.
      destruct (Z.ltb_spec (used c + 1 + n) (max_uses c)); [lia|].
      apply andb_false_r. }
    split.
    + exists (with_used c (used c + 1)). split; [exact Hget'|].
      destruct (Hdead 0 ltac:(lia)) as [H1 H2].
      rewrite Z.add_0_r in H1, H2. auto.
    + intros ops Hops.
      rewrite (run_get ops _ _ _ Hops Hget'). simpl used.
      eexists. split; [reflexivity|].
      rewrite with_used_with_used. apply Hdead. unfold marks. lia.
  - intros ops t Hops. rewrite (run_get ops _ _ _ Hops Hget).
    eexists. split; [reflexivity|]. simpl.
    split; [reflexivity|]. split; [reflexivity|].
    unfold can_use. simpl. intros [_ H]%andb_prop.
    apply Z.ltb_lt in H. exact H.
Qed.

(** Whatever [max_uses] is: while [can_use] still accepts the record read
    under [i], fewer than [max_uses - used] calls of [mark_used] for [i]
    have been made since it was read with counter [used]. *)
Lemma uses_bounded_by_max_uses (ops : list op) (i : string)
    (c : Confirmation) (s : FileConfirmationStore) (t : Z) :
  get i s = Returned (Some c) ->
  never_puts i ops ->
  exists c', get i (run ops s) = Returned (Some c')
             /\ (can_use t c' = true -> used c + marks i ops < max_uses c).
Proof.
  intros Hget Hops. rewrite (run_get ops _ _ _ Hops Hget).
  eexists. split; [reflexivity|]. unfold can_use. simpl.
  intros [_ H]%andb_prop. apply Z.ltb_lt in H. exact H.
Qed.

(** *** Round trip through the map *)

(** C3. Right after [put c], [get] under [c]'s id returns a record equal
    to [c] in every field, the nested preconditions included; so a record
    put with [cmd_hash = command_hash args] and [used = 0] is read back
    with both. *)
Theorem put_get_round_trip (now : Z) (c : Confirmation) (s : FileConfirmationStore) :
  get (confirmation_id c) (put now c s) = Returned (Some c)
  /\ (cmd_hash c = command_hash (args c) ->
      used c = 0 ->
      exists c', get (confirmation_id c) (put now c s) = Returned (Some c')
                 /\ preconditions c' = preconditions c
                 /\ cmd_hash c' = command_hash (args c')
                 /\ used c' = 0).
Proof.
  split; [apply get_put|].
  intros Hh Hu. exists c. rewrite get_put. auto.
Qed.

(** *** The audit log *)

Lemma mem_str_cons i k known :
  mem_str i (k :: known) = true -> i = k \/ mem_str i known = true.
Proof.
  unfold mem_str. simpl. intros [H|H]%orb_prop; [left|right; exact H].
  apply String.eqb_eq, H.
Qed.

Lemma run_audit_follows_put ops : forall known s,
  (forall i, mem_str i known = true -> exists c, get i s = Returned (Some c)) ->
  follows_put known ops = true ->
  _audit (run ops s) = _audit s ++ flat_map op_line ops.
Proof.
  unfold run.
  induction ops as [|o ops IH]; intros known s Hk Hf.
  - simpl. rewrite app_nil_r. reflexivity.
  - change (fold_left exec (o :: ops) s) with (fold_left exec ops (exec s o)).
    change (flat_map op_line (o :: ops))
      with (op_line o ++ flat_map op_line ops).
    destruct o as [now c|j|now c result|now a j extra]; simpl in Hf.
    + rewrite (IH (confirmation_id c :: known) (exec s (Put now c)));
        [simpl; rewrite <- app_assoc; reflexivity| |exact Hf].
      intros i Hi. simpl exec.
      destruct (String.eqb_spec i (confirmation_id c)) as [->|Hne];
        [eexists; apply get_put|].
      apply mem_str_cons in Hi as [->|Hi]; [congruence|].
      destruct (Hk i Hi) as [c' Hc']. exists c'. rewrite <- Hc'.
      apply get_lookup_ext, put_other, Hne.
    + rewrite (IH known (exec s (Get j))); [reflexivity|exact Hk|exact Hf].
    + apply andb_prop in Hf as [Hm Hf].
      destruct (Hk _ Hm) as [c' Hc'].
      destruct (mark_used_stored now c result s c' Hc') as (Hg & Ha & _).
      rewrite (IH known (exec s (MarkUsed now c result)));
        [simpl exec; rewrite Ha, <- app_assoc; reflexivity| |exact Hf].
      intros i Hi. simpl exec.
      destruct (String.eqb_spec i (confirmation_id c)) as [->|Hne];
        [eexists; exact Hg|].
      destruct (Hk i Hi) as [c'' Hc'']. exists c''. rewrite <- Hc''.
      apply get_lookup_ext, mark_used_other, Hne.
    + discriminate.
Qed.

Lemma follows_put_lines ops : forall known,
  follows_put known ops = true ->
  length (flat_map op_line ops) = (calls_put ops + calls_mark_used ops)%nat.
Proof.
  unfold calls_put, calls_mark_used.
  induction ops as [|o ops IH]; intros known Hf; [reflexivity|].
  destruct o as [now c|j|now c result|now a j extra]; simpl in Hf |- *.
  - rewrite (IH _ Hf). lia.
  - rewrite (IH _ Hf). lia.
  - apply andb_prop in Hf as [_ Hf]. rewrite (IH _ Hf). lia.
  - discriminate.
Qed.

(** C4 (as the code has it). From a fresh store, along any sequence of
    [put], [get] and [mark_used] calls in which every [mark_used] follows
    a [put] of the same id, each [put] and each [mark_used] appends
    exactly its own line: the log is the list of those lines in call
    order, N + M of them for N [put] and M [mark_used] calls. *)
Theorem audit_line_per_call (ops : list op) :
  follows_put [] ops = true ->
  _audit (run ops new_store) = flat_map op_line ops
  /\ length (_audit (run ops new_store))
     = (calls_put ops + calls_mark_used ops)%nat.
Proof.
  intros Hf.
  assert (H : _audit (run ops new_store) = flat_map op_line ops).
  { rewrite (run_audit_follows_put ops [] new_store); [reflexivity| |exact Hf].
    intros i Hi. discriminate. }
  split; [exact H|]. rewrite H. eapply follows_put_lines, Hf.
Qed.

(** C7. No call rewrites or removes a line: the log before any [put],
    [get], [mark_used] or [audit] call, and before any sequence of them,
    is a prefix of the log after it. *)
Theorem audit_append_only (s : FileConfirmationStore) :
  (forall o, _audit s `prefix_of` _audit (exec s o))
  /\ (forall ops, _audit s `prefix_of` _audit (run ops s)).
Proof.
  assert (H1 : forall s o, _audit s `prefix_of` _audit (exec s o)).
  { intros s0 [now c|j|now c result|now a j extra]; simpl.
    - apply prefix_app_r. reflexivity.
    - reflexivity.
    - destruct (mark_used_audit now c result s0) as [-> | ->];
        [reflexivity|apply prefix_app_r; reflexivity].
    - apply prefix_app_r. reflexivity. }
  split; [apply H1|].
  intros ops. revert s. unfold run.
  induction ops as [|o ops IH]; intros s; simpl; [reflexivity|].
  etransitivity; [apply H1|apply IH].
Qed.

(** *** The counter *)

(** C5 (as the code has it). Along any sequence of [put], [get],
    [mark_used] and [audit] calls that does not [put] under the id of a
    stored record again, the record's [used] never decreases: it has
    grown by the number of [mark_used] calls made for that id, and one
    more [mark_used] for it adds exactly one. *)
Theorem used_counter_monotone (ops : list op) (i : string)
    (c : Confirmation) (s : FileConfirmationStore) :
  get i s = Returned (Some c) ->
  never_puts i ops ->
  exists c', get i (run ops s) = Returned (Some c')
             /\ used c' = used c + marks i ops
             /\ used c <= used c'
             /\ forall now cx result,
                  confirmation_id cx = i ->
                  exists c'',
                    get i (fst (mark_used now cx result (run ops s)))
                    = Returned (Some c'')
                    /\ used c'' = used c' + 1.
Proof.
  intros Hget Hops. pose proof (run_get ops _ _ _ Hops Hget) as Hrun.
  eexists. split; [exact Hrun|]. simpl.
  split; [reflexivity|]. split; [unfold marks; lia|].
  intros now cx result <-.
  destruct (mark_used_stored now cx result _ _ Hrun) as (Hg & _ & _).
  eexists. split; [exact Hg|]. reflexivity.
Qed.

(** *** Missing records *)

(** C9. [mark_used] for a record whose id is no key of the map does
    nothing: the map and the log are unchanged and the call returns
    without raising. *)
Theorem mark_used_unknown_id_noop (now : Z) (c : Confirmation)
    (result : pydict) (s : FileConfirmationStore) :
  _db s !! confirmation_id c = None ->
  mark_used now c result s = (s, Returned tt).
Proof. apply mark_used_absent. Qed.

(** *** Write order *)

Lemma mark_used_on_records now cx result s :
  stores_records s ->
  fst (mark_used now cx result s) = s
  \/ exists c,
       _db s !! confirmation_id cx = Some (JDict (asdict c))
       /\ fst (mark_used now cx result s)
          = audit now "executed" (confirmation_id cx)
              (Some [("result", JDict result)]%string)
              (_save (<[confirmation_id cx :=
                          JDict (asdict (with_used c (used c + 1)))]>
                        (_load s)) s).
Proof.
  intros Hrec. unfold mark_used, _load, data_get.
  destruct (_db s !! confirmation_id cx) as [v|] eqn:Hl; [|left; reflexivity].
  destruct (Hrec _ _ Hl) as (c & -> & Hid).
  right. exists c. split; reflexivity.
Qed.

Lemma is_Some_lookup_insert (m : gmap string json) k v i :
  is_Some (m !! i) -> is_Some (<[k := v]> m !! i).
Proof.
  intros H. destruct (decide (k = i)) as [->|Hne].
  - rewrite lookup_insert_eq. eauto.
  - rewrite lookup_insert_ne; assumption.
Qed.

Lemma stores_records_insert (s : FileConfirmationStore) c (m : gmap string json) :
  (forall k v, m !! k = Some v ->
               exists c', v = JDict (asdict c') /\ confirmation_id c' = k) ->
  forall k v, <[confirmation_id c := JDict (asdict c)]> m !! k = Some v ->
              exists c', v = JDict (asdict c') /\ confirmation_id c' = k.
Proof.
  intros Hm k v. destruct (decide (confirmation_id c = k)) as [<-|Hne].
  - rewrite lookup_insert_eq. intros [= <-]. eauto.
  - rewrite lookup_insert_ne by assumption. apply Hm.
Qed.

Lemma reachable_invariant s :
  reachable s -> stores_records s /\ proposals_recorded s.
Proof.
  induction 1 as [|now c s _ [Hr Hp]|now c s _ [Hr Hp]
                  |now c result s _ [Hr Hp]|now c result s _ [Hr Hp]].
  - split.
    + intros k v; simpl. rewrite lookup_empty. discriminate.
    + intros line i [].
  - split.
    + intros k v; simpl. apply (stores_records_insert s), Hr.
    + intros line i; simpl. intros [Hin|[<-|[]]]%in_app_or Ha Hi.
      * apply is_Some_lookup_insert. eapply Hp; eassumption.
      * injection Hi as <-. rewrite lookup_insert_eq. eauto.
  - split.
    + intros k v; simpl. apply (stores_records_insert s), Hr.
    + intros line i; simpl. intros Hin Ha Hi.
      apply is_Some_lookup_insert. eapply Hp; eassumption.
  - destruct (mark_used_on_records now c result s Hr) as [->|(c' & Hl & ->)];
      [split; assumption|].
    assert (Hid : confirmation_id c = confirmation_id (with_used c' (used c' + 1))).
    { destruct (Hr _ _ Hl) as (c'' & [= Hc''] & Hid).
      simpl. congruence. }
    split.
    + intros k v; simpl. rewrite Hid.
      apply (stores_records_insert s), Hr.
    + intros line i; simpl. intros [Hin|[<-|[]]]%in_app_or Ha Hi.
      * apply is_Some_lookup_insert. eapply Hp; eassumption.
      * discriminate.
  - destruct (mark_used_on_records now c result s Hr) as [->|(c' & Hl & ->)];
      [split; [exact Hr|exact Hp]|].
    assert (Hid : confirmation_id c = confirmation_id (with_used c' (used c' + 1))).
    { destruct (Hr _ _ Hl) as (c'' & [= Hc''] & Hid).
      simpl. congruence. }
    split.
    + intros k v; simpl. rewrite Hid.
      apply (stores_records_insert s), Hr.
    + intros line i; simpl. intros Hin Ha Hi.
      apply is_Some_lookup_insert. eapply Hp; eassumption.
Qed.

(** C8. [put] appends its "proposed" line to the log of the store that
    [_save] has already written; so in every state reached from a fresh
    store by [put] and [mark_used] calls, completed or cut short, each
    "proposed" line of the log names an id under which the map holds a
    record: [get] returns it, and it carries that id. *)
Theorem proposed_line_has_record (s : FileConfirmationStore) (line : pydict)
    (i : string) :
  reachable s ->
  In line (_audit s) ->
  dict_get "action" line = Some (JStr "proposed") ->
  dict_get "confirmation_id" line = Some (JStr i) ->
  (exists c, get i s = Returned (Some c) /\ confirmation_id c = i)
  /\ (forall now c s0,
        put now c s0
        = audit now "proposed" (confirmation_id c)
            (Some [("classification", JDict (classification c))]%string)
            (_save (<[confirmation_id c := JDict (asdict c)]> (_load s0))
                   s0)).
Proof.
  intros Hreach Hin Ha Hi. split; [|reflexivity].
  destruct (reachable_invariant s Hreach) as [Hr Hp].
  destruct (Hp line i Hin Ha Hi) as [v Hv].
  destruct (Hr _ _ Hv) as (c & -> & Hid).
  exists c. split; [apply get_asdict, Hv|exact Hid].
Qed.

(** *** Values that are no record *)

(** X1. A key whose value is falsy (no value at all, [null], an empty
    object, [0], an empty text or list) is a missing record for both
    readers: [get] answers [None], and [mark_used] returns without writing
    anything. *)
Theorem falsy_value_is_no_record (now : Z) (c : Confirmation)
    (result : pydict) (s : FileConfirmationStore) :
  py_truthy (data_get (confirmation_id c) (_load s)) = false ->
  get (confirmation_id c) s = Returned None
  /\ mark_used now c result s = (s, Returned tt).
Proof.
  intros H. unfold get, mark_used. rewrite H. split; reflexivity.
Qed.

(** X2. A key whose value is truthy but no object (a number, a text, a
    list) makes [get] and [mark_used] raise [AttributeError]. *)
Theorem non_object_value_raises (now : Z) (c : Confirmation)
    (result : pydict) (s : FileConfirmationStore) (v : json) :
  _db s !! confirmation_id c = Some v ->
  py_truthy v = true ->
  as_dict v = None ->
  get (confirmation_id c) s = Raised AttributeError
  /\ snd (mark_used now c result s) = Raised AttributeError.
Proof.
  intros Hl Ht Hd. unfold get, mark_used, _load, data_get. rewrite Hl, Ht.
  destruct v; try discriminate; split; reflexivity.
Qed.

(** X4. An object stored with the seven fields without default only is
    read with the defaults of the dataclasses ([max_uses = 1], [used = 0],
    no expected head or branch, no clean tree required, no conflicts
    allowed); [mark_used] then starts its counter at one. *)
Theorem record_without_optional_fields (now : Z) (result : pydict)
    (c cx : Confirmation) (s : FileConfirmationStore) :
  _db s !! confirmation_id cx = Some (JDict (required_items c)) ->
  get (confirmation_id cx) s = Returned (Some (with_defaults c))
  /\ get (confirmation_id cx) (fst (mark_used now cx result s))
     = Returned (Some (with_used (with_defaults c) 1)).
Proof.
  intros Hl.
  assert (Hget : get (confirmation_id cx) s = Returned (Some (with_defaults c))).
  { unfold get, _load, data_get. rewrite Hl.
    destruct c; unfold required_items, Confirmation_kwargs, kwarg; simpl.
    rewrite as_strs_map_JStr. reflexivity. }
  split; [exact Hget|].
  exact (proj1 (mark_used_stored now cx result s _ Hget)).
Qed.

Lemma Confirmation_kwargs_refuses d pre :
  forallb (fun kv => mem_str (fst kv) Confirmation_fields) d = false
  \/ forallb (fun k => dict_has k d) Confirmation_required = false ->
  Confirmation_kwargs d pre = Raised TypeError.
Proof.
  unfold Confirmation_kwargs. intros [-> | ->]; [reflexivity|].
  rewrite andb_false_r. reflexivity.
Qed.

Lemma Preconditions_kwargs_raises kw e :
  Preconditions_kwargs kw = Raised e -> e = TypeError.
Proof.
  unfold Preconditions_kwargs. destruct (forallb _ kw); [|congruence].
  repeat (match goal with
          | |- context [match kwarg ?dec ?dflt ?k kw with _ => _ end] =>
              destruct (kwarg dec dflt k kw); try discriminate
          end).
Qed.

(** X5. [get] raises [TypeError] for a stored non-empty object that holds
    a key which is no field of [Confirmation], or lacks a field without
    default, whatever it holds under "preconditions". *)
Theorem unexpected_or_missing_field_raises (i : string) (d : pydict)
    (s : FileConfirmationStore) :
  _db s !! i = Some (JDict d) ->
  d <> [] ->
  forallb (fun kv => mem_str (fst kv) Confirmation_fields) d = false
  \/ forallb (fun k => dict_has k d) Confirmation_required = false ->
  get i s = Raised TypeError.
Proof.
  intros Hl Hd Hbad. unfold get, _load, data_get. rewrite Hl.
  assert (py_truthy (JDict d) = true) as ->.
  { destruct d; [congruence|reflexivity]. }
  simpl negb. cbv iota.
  destruct (py_or _ _) as [| | | | |kw]; try reflexivity.
  destruct (Preconditions_kwargs kw) as [pre|e|] eqn:Hpre.
  - rewrite (Confirmation_kwargs_refuses d pre Hbad). reflexivity.
  - rewrite (Preconditions_kwargs_raises _ _ Hpre). reflexivity.
  - rewrite (Confirmation_kwargs_refuses d _ Hbad). reflexivity.
Qed.

(** *** What a call leaves alone *)

(** X6. [put] and [mark_used] for a record touch no other id: what [get]
    answers under any other id is unchanged. *)
Theorem other_ids_untouched (now : Z) (c : Confirmation) (result : pydict)
    (i : string) (s : FileConfirmationStore) :
  i <> confirmation_id c ->
  get i (put now c s) = get i s
  /\ get i (fst (mark_used now c result s)) = get i s.
Proof.
  intros Hne. split; apply get_lookup_ext.
  - apply put_other, Hne.
  - apply mark_used_other, Hne.
Qed.

Lemma exec_keeps_keys (s : FileConfirmationStore) (o : op) (i : string) :
  is_Some (_db s !! i) -> is_Some (_db (exec s o) !! i).
Proof.
  intros H. destruct o as [now c|j|now c result|now a j extra]; simpl;
    try assumption.
  - apply is_Some_lookup_insert, H.
  - destruct (decide (i = confirmation_id c)) as [->|Hne].
    + unfold mark_used, _load.
      destruct (negb _); [exact H|].
      destruct (data_get _ _); try exact H.
      destruct (py_int _); try exact H.
      simpl. rewrite lookup_insert_eq. eauto.
    + rewrite mark_used_other by exact Hne. exact H.
Qed.

(** X7. No call deletes a record: an id that is a key of the map stays one
    along every sequence of [put], [get], [mark_used] and [audit] calls,
    and the map never shrinks. *)
Theorem records_never_deleted (ops : list op) (s : FileConfirmationStore) :
  (forall i, is_Some (_db s !! i) -> is_Some (_db (run ops s) !! i))
  /\ dom (_db s) ⊆ dom (_db (run ops s))
  /\ (size (_db s) <= size (_db (run ops s)))%nat.
Proof.
  assert (H : forall i, is_Some (_db s !! i) -> is_Some (_db (run ops s) !! i)).
  { unfold run. revert s.
    induction ops as [|o ops IH]; intros s i Hi; simpl; [exact Hi|].
    apply IH, exec_keeps_keys, Hi. }
  assert (Hdom : dom (_db s) ⊆ dom (_db (run ops s))).
  { intros i Hi. apply elem_of_dom. apply H. apply elem_of_dom. exact Hi. }
  split; [exact H|]. split; [exact Hdom|].
  rewrite <- !size_dom. apply subseteq_size, Hdom.
Qed.

(** X8. Calls that do not [put] under a record's id again change nothing of
    it but the counter: root, argument vector, fingerprint, times,
    [max_uses] and preconditions are read back as stored, so a record
    bound to its arguments by [cmd_hash] stays bound. *)
Theorem record_fields_stable (ops : list op) (i : string)
    (c : Confirmation) (s : FileConfirmationStore) :
  get i s = Returned (Some c) ->
  never_puts i ops ->
  get i (run ops s) = Returned (Some (with_used c (used c + marks i ops)))
  /\ (cmd_hash c = command_hash (args c) ->
      exists c', get i (run ops s) = Returned (Some c')
                 /\ cmd_hash c' = command_hash (args c')
                 /\ root c' = root c /\ expires_at c' = expires_at c
                 /\ max_uses c' = max_uses c
                 /\ preconditions c' = preconditions c).
Proof.
  intros Hget Hops. pose proof (run_get ops _ _ _ Hops Hget) as Hrun.
  split; [exact Hrun|]. intros Hh. eexists. split; [exact Hrun|].
  simpl. auto.
Qed.

(** X9. The store enforces no ceiling: [mark_used] on a record already
    used [max_uses] times or more still returns, appends its line and
    raises the counter, which then exceeds [max_uses]. *)
Theorem mark_used_has_no_ceiling (now : Z) (result : pydict) (i : string)
    (c cx : Confirmation) (s : FileConfirmationStore) :
  get i s = Returned (Some c) ->
  confirmation_id cx = i ->
  max_uses c <= used c ->
  snd (mark_used now cx result s) = Returned tt
  /\ _audit (fst (mark_used now cx result s))
     = _audit s ++ [executed_line now cx result]
  /\ exists c', get i (fst (mark_used now cx result s)) = Returned (Some c')
                /\ used c' = used c + 1
                /\ max_uses c' < used c'.
Proof.
  intros Hget <- Hmax.
  destruct (mark_used_stored now cx result s c Hget) as (Hg & Ha & Hr).
  split; [exact Hr|]. split; [exact Ha|].
  eexists. split; [exact Hg|]. simpl. lia.
Qed.

(** X21. Along calls that do not [put] under a record's id again, the
    record read back is usable at a clock value exactly when it is not
    expired then and the [mark_used] calls made for it, added to the uses
    it had, stay below [max_uses]. *)
Theorem usable_iff_uses_left (ops : list op) (i : string)
    (c : Confirmation) (s : FileConfirmationStore) (t : Z) :
  get i s = Returned (Some c) ->
  never_puts i ops ->
  exists c', get i (run ops s) = Returned (Some c')
             /\ (can_use t c' = true
                 <-> is_expired t c = false
                     /\ used c + marks i ops < max_uses c).
Proof.
  intros Hget Hops. rewrite (run_get ops _ _ _ Hops Hget).
  eexists. split; [reflexivity|]. unfold can_use, is_expired. simpl.
  rewrite andb_true_iff, negb_true_iff, Z.ltb_lt. reflexivity.
Qed.

(** *** Reachable stores *)

(** X10. On every store reached from a fresh one by [put] and [mark_used]
    calls, completed or cut short, reading cannot fail: [get] answers
    [None] or a record carrying the id asked for, and [mark_used] returns
    without raising. *)
Theorem reachable_store_reads (s : FileConfirmationStore) (i : string)
    (now : Z) (c : Confirmation) (result : pydict) :
  reachable s ->
  (get i s = Returned None
   \/ exists c', get i s = Returned (Some c') /\ confirmation_id c' = i)
  /\ snd (mark_used now c result s) = Returned tt.
Proof.
  intros Hreach. destruct (reachable_invariant s Hreach) as [Hr _]. split.
  - destruct (_db s !! i) as [v|] eqn:Hl.
    + destruct (Hr _ _ Hl) as (c' & -> & Hid).
      right. exists c'. split; [apply get_asdict, Hl|exact Hid].
    + left. unfold get, _load, data_get. rewrite Hl. reflexivity.
  - unfold mark_used, _load, data_get.
    destruct (_db s !! confirmation_id c) as [v|] eqn:Hl; [|reflexivity].
    destruct (Hr _ _ Hl) as (c' & -> & Hid). reflexivity.
Qed.

Lemma line_recorded_insert (s s' : FileConfirmationStore) line :
  (forall i, is_Some (_db s !! i) -> is_Some (_db s' !! i)) ->
  line_recorded s line -> line_recorded s' line.
Proof.
  intros Hk (t & i & Ht & Hi & Ha & Hs). exists t, i. auto.
Qed.

Lemma reachable_lines (s : FileConfirmationStore) :
  reachable s -> Forall (line_recorded s) (_audit s).
Proof.
  induction 1 as [|now c s Hs IH|now c s Hs IH
                  |now c result s Hs IH|now c result s Hs IH].
  - constructor.
  - simpl. apply Forall_app. split.
    + eapply Forall_impl; [exact IH|]. intros line.
      apply line_recorded_insert. intros i; simpl.
      apply is_Some_lookup_insert.
    + constructor; [|constructor].
      exists now, (confirmation_id c). simpl.
      rewrite lookup_insert_eq. eauto 6.
  - simpl. eapply Forall_impl; [exact IH|]. intros line.
    apply line_recorded_insert. intros i; simpl.
    apply is_Some_lookup_insert.
  - destruct (reachable_invariant s Hs) as [Hr _].
    destruct (mark_used_on_records now c result s Hr) as [->|(c' & Hl & ->)];
      [exact IH|].
    simpl. apply Forall_app. split.
    + eapply Forall_impl; [exact IH|]. intros line.
      apply line_recorded_insert. intros i; simpl.
      apply is_Some_lookup_insert.
    + constructor; [|constructor].
      exists now, (confirmation_id c). simpl.
      rewrite lookup_insert_eq. eauto 6.
  - destruct (reachable_invariant s Hs) as [Hr _].
    destruct (mark_used_on_records now c result s Hr) as [->|(c' & Hl & ->)];
      [destruct s; exact IH|].
    simpl. eapply Forall_impl; [exact IH|]. intros line.
    apply line_recorded_insert. intros i; simpl.
    apply is_Some_lookup_insert.
Qed.

(** X11. On every reachable store, each line of the log carries an integer
    [ts], the action "proposed" or "executed" and a [confirmation_id] that
    is a key of the map: an "executed" line, like a "proposed" one, never
    names an id without a record. *)
Theorem reachable_log_lines (s : FileConfirmationStore) (line : pydict) :
  reachable s ->
  In line (_audit s) ->
  exists t i,
    dict_get "ts" line = Some (JInt t)
    /\ dict_get "confirmation_id" line = Some (JStr i)
    /\ (dict_get "action" line = Some (JStr "proposed")
        \/ dict_get "action" line = Some (JStr "executed"))
    /\ exists c, get i s = Returned (Some c) /\ confirmation_id c = i.
Proof.
  intros Hreach Hin.
  pose proof (reachable_lines s Hreach) as Hall.
  rewrite Forall_forall in Hall.
  destruct (Hall line) as (t & i & Ht & Hi & Ha & [v Hv]).
  { apply list_elem_of_In. exact Hin. }
  destruct (reachable_invariant s Hreach) as [Hr _].
  destruct (Hr _ _ Hv) as (c & -> & Hid).
  exists t, i. repeat split; auto.
  exists c. split; [apply get_asdict, Hv|exact Hid].
Qed.

(** *** Composing [put] *)

(** X12. Two [put] calls for different ids commute on the map: either
    order leaves the same records (the log keeps the call order). *)
Theorem puts_commute_on_map (t1 t2 : Z) (c1 c2 : Confirmation)
    (s : FileConfirmationStore) :
  confirmation_id c1 <> confirmation_id c2 ->
  _db (put t2 c2 (put t1 c1 s)) = _db (put t1 c1 (put t2 c2 s))
  /\ get (confirmation_id c1) (put t2 c2 (put t1 c1 s)) = Returned (Some c1)
  /\ get (confirmation_id c2) (put t2 c2 (put t1 c1 s)) = Returned (Some c2).
Proof.
  intros Hne. split; [|split].
  - simpl. unfold _load. simpl. apply insert_insert_ne. congruence.
  - transitivity (get (confirmation_id c1) (put t1 c1 s));
      [apply get_lookup_ext, put_other, Hne|apply get_put].
  - apply get_put.
Qed.

End Calls.

(** *** Identifiers and fingerprints *)

(** The digest on the test vectors of FIPS 180-4: the empty message, one
    block, two blocks. *)
Example sha256_empty :
  Sha256.hexdigest EmptyString
  = "e3b0c44298fc1c149afbf4c8996fb92427ae41e4649b934ca495991b7852b855"%string.
Proof. vm_compute. reflexivity. Qed.

Example sha256_abc :
  Sha256.hexdigest "abc"
  = "ba7816bf8f01cfea414140de5dae2223b00361a396177a9cb410ff61f20015ad"%string.
Proof. vm_compute. reflexivity. Qed.

Example sha256_two_blocks :
  Sha256.hexdigest "abcdbcdecdefdefgefghfghighijhijkijkljklmklmnlmnomnopnopq"
  = "248d6a61d20638b8e5c026930c3e6039a33ce45964ff2167f6ecedd419db06c1"%string.
Proof. vm_compute. reflexivity. Qed.

(** The fingerprint and the id of [git commit -m "a b"], as [hashlib]
    gives them. *)
Example command_hash_commit :
  command_hash ["commit"; "-m"; "a b"]%string
  = "9f57c0859642d45451f09457f0b8b3f236a6a2c5dc1358405237d99603071fb5"%string.
Proof. vm_compute. reflexivity. Qed.

Example new_confirmation_id_commit :
  new_confirmation_id "/r" 1730000000 ["commit"; "-m"; "a b"]%string
  = "b0035fa6677745de"%string.
Proof. vm_compute. reflexivity. Qed.

Lemma hex_digit_is_hex x : is_hex_char (Sha256.hex_digit x) = true.
Proof.
  unfold is_hex_char, Sha256.hex_digit. fold hex_chars.
  apply existsb_exists. eexists. split; [|apply Ascii.eqb_refl].
  apply nth_In.
  pose proof (Z.mod_pos_bound x 16 ltac:(lia)).
  change (length hex_chars) with 16%nat. lia.
Qed.

Lemma hexdigest_prefix16 s :
  String.substring 0 16 (Sha256.hexdigest s)
  = Sha256.hex8 (Sha256.ra (Sha256.digest (Sha256.bytes_of_string s)))
      (Sha256.hex8 (Sha256.rb (Sha256.digest (Sha256.bytes_of_string s)))
         EmptyString).
Proof.
  unfold Sha256.hexdigest.
  generalize (Sha256.digest (Sha256.bytes_of_string s)) as r. intros r.
  unfold Sha256.hex_of_regs, Sha256.hex8.
  cbn [String.substring]. reflexivity.
Qed.

Lemma put_put_same_id t1 t2 c1 c2 s :
  confirmation_id c1 = confirmation_id c2 ->
  _db (put t2 c2 (put t1 c1 s)) = _db (put t2 c2 s).
Proof. intros H. simpl. unfold _load. simpl. rewrite H. apply insert_insert_eq. Qed.

(** C10. [new_confirmation_id] is a function of the resolved root, the
    clock second and the argument vector: equal inputs give the same id,
    the first sixteen hexadecimal digits of the SHA-256 of the seed; so two
    records proposed for the same command in the same second carry the same
    id, and the second [put] replaces the first record in the map. *)
Theorem confirmation_id_deterministic
    (root1 root2 : string) (now1 now2 : Z) (args1 args2 : list string)
    (t1 t2 : Z) (c1 c2 : Confirmation) (s : FileConfirmationStore) :
  root1 = root2 -> now1 = now2 -> args1 = args2 ->
  confirmation_id c1 = new_confirmation_id root1 now1 args1 ->
  confirmation_id c2 = new_confirmation_id root2 now2 args2 ->
  let i := new_confirmation_id root1 now1 args1 in
  new_confirmation_id root2 now2 args2 = i
  /\ i = String.substring 0 16
           (Sha256.hexdigest
              (String.append root1
                 (String.append newline
                    (String.append (py_str_of_int now1)
                       (String.append newline (_stable_cmd_text args1))))))
  /\ String.length i = 16%nat
  /\ forallb is_hex_char (list_ascii_of_string i) = true
  /\ get i (put t2 c2 (put t1 c1 s)) = Returned (Some c2)
  /\ _db (put t2 c2 (put t1 c1 s)) = _db (put t2 c2 s).
Proof.
  intros <- <- <- H1 H2 i. fold i in H1, H2.
  split; [reflexivity|]. split; [reflexivity|].
  split; [|split; [|split]].
  - unfold i, new_confirmation_id, _sha256_text.
    rewrite hexdigest_prefix16. reflexivity.
  - unfold i, new_confirmation_id, _sha256_text.
    rewrite hexdigest_prefix16. unfold Sha256.hex8.
    cbn [list_ascii_of_string forallb]. rewrite !hex_digit_is_hex. reflexivity.
  - rewrite <- H2. apply get_put.
  - apply put_put_same_id. congruence.
Qed.

(** The representation that is hashed. *)

Lemma append_nil s : String.append EmptyString s = s.
Proof. reflexivity. Qed.

Lemma append_cons c a s :
  String.append (String c a) s = String c (String.append a s).
Proof. reflexivity. Qed.

Lemma newline_split_inj a b x y :
  no_newline a -> no_newline b ->
  String.append a (String.append newline x)
  = String.append b (String.append newline y) ->
  a = b /\ x = y.
Proof.
  unfold no_newline, newline. revert b.
  induction a as [|c a IH]; intros [|c' b] Ha Hb;
    rewrite ?append_cons, ?append_nil; intros H.
  - injection H as ->. auto.
  - injection H as <- _. exfalso. apply Hb. simpl. auto.
  - injection H as -> _. exfalso. apply Ha. simpl. auto.
  - injection H as -> H. destruct (IH b) as [-> ->]; auto.
    + intros Hin. apply Ha. simpl. auto.
    + intros Hin. apply Hb. simpl. auto.
Qed.

Lemma no_newline_not_joined a b y :
  no_newline a -> a <> String.append b (String.append newline y).
Proof.
  unfold no_newline, newline. revert b.
  induction a as [|c a IH]; intros [|c' b] Ha;
    rewrite ?append_cons, ?append_nil; try discriminate.
  - intros [= -> _]. apply Ha. simpl. auto.
  - intros [= -> H]. apply (IH b); [|exact H].
    intros Hin. apply Ha. simpl. auto.
Qed.

(** Where no argument holds a newline, the joined text determines the
    vector (the empty vector apart, which joins to the same text as the
    vector of one empty argument). *)
Lemma _stable_cmd_text_inj l1 : forall l2,
  l1 <> [] -> l2 <> [] ->
  Forall no_newline l1 -> Forall no_newline l2 ->
  _stable_cmd_text l1 = _stable_cmd_text l2 -> l1 = l2.
Proof.
  unfold _stable_cmd_text.
  induction l1 as [|a l1 IH]; intros [|b l2] H1 H2 F1 F2; try congruence.
  inversion F1 as [|? ? Ha F1']; inversion F2 as [|? ? Hb F2']; subst.
  destruct l1 as [|a' l1], l2 as [|b' l2]; cbn [String.concat]; intros H.
  - congruence.
  - exfalso. exact (no_newline_not_joined _ _ _ Ha H).
  - exfalso. symmetry in H. exact (no_newline_not_joined _ _ _ Hb H).
  - apply newline_split_inj in H as [-> H]; [|assumption..].
    f_equal. apply IH; auto; discriminate.
Qed.

(** The pair of the specification's scenario: a space inside an argument is
    not an argument boundary. *)
Lemma command_hash_space_pair :
  command_hash ["commit"; "-m"; "a b"]%string
  <> command_hash ["commit"; "-m"; "a"; "b"]%string.
Proof.
  apply String.eqb_neq. vm_compute. reflexivity.
Qed.

(** C6. Evaluated on [["commit"; "-m"; "a\nb"]] and
    [["commit"; "-m"; "a"; "b"]]: the two vectors differ, yet they are
    joined to the same text, and so have the same [command_hash]. *)
Theorem command_hash_newline_pair :
  let args1 := ["commit"; "-m"; a_newline_b]%string in
  let args2 := ["commit"; "-m"; "a"; "b"]%string in
  args1 <> args2
  /\ _stable_cmd_text args1 = _stable_cmd_text args2
  /\ command_hash args1 = command_hash args2.
Proof.
  intros args1 args2.
  assert (H : _stable_cmd_text args1 = _stable_cmd_text args2) by reflexivity.
  split; [discriminate|]. split; [exact H|].
  unfold command_hash. rewrite H. reflexivity.
Qed.

(** *** Eligibility over time *)

(** X13. Eligibility only ever goes away with time: a record expired at
    one clock value is expired at every later one, a record usable at one
    clock value was usable at every earlier one; the record is still
    unexpired in the second [expires_at] itself and expired from the next
    second on. *)
Theorem eligibility_over_time (c : Confirmation) (now now' : Z) :
  now <= now' ->
  (is_expired now c = true -> is_expired now' c = true)
  /\ (can_use now' c = true -> can_use now c = true)
  /\ is_expired (expires_at c) c = false
  /\ is_expired (expires_at c + 1) c = true.
Proof.
  intros Hle. unfold can_use, is_expired.
  destruct (Z.gtb_spec now (expires_at c));
    destruct (Z.gtb_spec now' (expires_at c));
    destruct (Z.gtb_spec (expires_at c) (expires_at c));
    destruct (Z.gtb_spec (expires_at c + 1) (expires_at c));
    simpl; repeat split; auto; try lia; try discriminate.
Qed.

(** *** Digests *)

Lemma hex_of_regs_format r :
  String.length (Sha256.hex_of_regs r) = 64%nat
  /\ forallb is_hex_char (list_ascii_of_string (Sha256.hex_of_regs r)) = true.
Proof.
  unfold Sha256.hex_of_regs, Sha256.hex8. split; [reflexivity|].
  cbn [list_ascii_of_string forallb]. rewrite !hex_digit_is_hex. reflexivity.
Qed.

(** X14. Whatever the text, [_sha256_text] returns 64 lower-case
    hexadecimal digits; so does [command_hash] for every argument vector,
    the empty one included. *)
Theorem digest_is_64_hex_digits (s : string) (args : list string) :
  String.length (_sha256_text s) = 64%nat
  /\ forallb is_hex_char (list_ascii_of_string (_sha256_text s)) = true
  /\ String.length (command_hash args) = 64%nat
  /\ forallb is_hex_char (list_ascii_of_string (command_hash args)) = true.
Proof.
  unfold command_hash, _sha256_text, Sha256.hexdigest.
  pose proof (hex_of_regs_format (Sha256.digest (Sha256.bytes_of_string s))).
  pose proof (hex_of_regs_format
                (Sha256.digest (Sha256.bytes_of_string (_stable_cmd_text args)))).
  tauto.
Qed.

(** *** The joined text *)

Lemma append_assoc a b c :
  String.append (String.append a b) c = String.append a (String.append b c).
Proof.
  induction a as [|x a IH]; rewrite ?append_nil, ?append_cons;
    [reflexivity|]. rewrite IH. reflexivity.
Qed.

Lemma concat_cons_cons sep a b l :
  String.concat sep (a :: b :: l)
  = String.append a (String.append sep (String.concat sep (b :: l))).
Proof. reflexivity. Qed.

(** X15. An argument that holds a newline cannot be told from the two
    arguments it splits into: anywhere in a vector, [a ++ "\n" ++ b] and the
    pair [a; b] give the same joined text, hence the same [command_hash]. *)
Theorem newline_argument_splits (l l' : list string) (a b : string) :
  _stable_cmd_text
    (l ++ String.append a (String.append newline b) :: l')
  = _stable_cmd_text (l ++ a :: b :: l')
  /\ command_hash (l ++ String.append a (String.append newline b) :: l')
     = command_hash (l ++ a :: b :: l').
Proof.
  assert (H : _stable_cmd_text
                (l ++ String.append a (String.append newline b) :: l')
              = _stable_cmd_text (l ++ a :: b :: l')).
  { unfold _stable_cmd_text. induction l as [|x l IH].
    - rewrite !app_nil_l. destruct l' as [|y l'].
      + reflexivity.
      + rewrite !concat_cons_cons, !append_assoc. reflexivity.
    - destruct l as [|x' l].
      + rewrite !app_nil_l in IH. change ([x] ++ ?z :: ?r) with (x :: z :: r).
        rewrite !(concat_cons_cons newline x), IH. reflexivity.
      + change ((x :: x' :: l) ++ ?r) with (x :: x' :: (l ++ r)).
        change ((x' :: l) ++ ?r) with (x' :: (l ++ r)) in IH.
        rewrite !(concat_cons_cons newline x), IH. reflexivity. }
  split; [exact H|]. unfold command_hash. rewrite H. reflexivity.
Qed.

(** X16. Where the vectors are not empty and no argument holds a newline,
    the joined text is unambiguous: two vectors joined to the same text
    are the same vector. *)
Theorem stable_text_unambiguous (args1 args2 : list string) :
  args1 <> [] -> args2 <> [] ->
  Forall no_newline args1 -> Forall no_newline args2 ->
  _stable_cmd_text args1 = _stable_cmd_text args2 ->
  args1 = args2.
Proof. apply _stable_cmd_text_inj. Qed.

(** *** The seed of an id *)

Lemma uint_text_no_newline d : no_newline (NilEmpty.string_of_uint d).
Proof.
  unfold no_newline.
  induction d; simpl; intros H; try exact H;
    destruct H as [H|H]; try discriminate; auto.
Qed.

Lemma nilzero_text_no_newline d : no_newline (NilZero.string_of_uint d).
Proof.
  destruct d; try (apply (uint_text_no_newline (_ d)));
    try exact (uint_text_no_newline _).
  unfold no_newline. simpl. intros [H|[]]. discriminate.
Qed.

Lemma py_str_of_int_no_newline n : no_newline (py_str_of_int n).
Proof.
  unfold py_str_of_int, NilZero.string_of_int.
  destruct (Z.to_int n) as [d|d]; [apply nilzero_text_no_newline|].
  pose proof (nilzero_text_no_newline d) as H.
  unfold no_newline in *. simpl. intros [E|E]; [discriminate|auto].
Qed.

Lemma py_str_of_int_inj n n' : py_str_of_int n = py_str_of_int n' -> n = n'.
Proof.
  unfold py_str_of_int. intros H. apply to_int_inj.
  assert (Hok : forall z, Z.to_int z <> Decimal.Pos Decimal.Nil
                          /\ Z.to_int z <> Decimal.Neg Decimal.Nil).
  { intros [|p|p]; simpl; split; try discriminate;
      intros [= Hp]; exact (Unsigned.to_uint_nonnil p Hp). }
  destruct (Hok n) as [H1 H2]. destruct (Hok n') as [H1' H2'].
  pose proof (NilZero.isi _ H1 H2) as E. rewrite H in E.
  rewrite (NilZero.isi _ H1' H2') in E. congruence.
Qed.

(** X17. The seed is unambiguous where neither the root nor an argument
    holds a newline and the vector is not empty: two proposals with the
    same seed have the same root, clock second and argument vector, so two
    different proposals can share an id only through a collision of the
    truncated digest. *)
Theorem seed_unambiguous (root1 root2 : string) (now1 now2 : Z)
    (args1 args2 : list string) :
  no_newline root1 -> no_newline root2 ->
  args1 <> [] -> args2 <> [] ->
  Forall no_newline args1 -> Forall no_newline args2 ->
  confirmation_seed root1 now1 args1 = confirmation_seed root2 now2 args2 ->
  (root1 = root2 /\ now1 = now2 /\ args1 = args2)
  /\ new_confirmation_id root1 now1 args1
     = String.substring 0 16
         (_sha256_text (confirmation_seed root1 now1 args1)).
Proof.
  intros R1 R2 N1 N2 F1 F2 H. split; [|reflexivity].
  unfold confirmation_seed in H.
  apply newline_split_inj in H as [-> H]; [|assumption..].
  apply newline_split_inj in H as [Hn H];
    [|apply py_str_of_int_no_newline..].
  apply py_str_of_int_inj in Hn as ->.
  apply _stable_cmd_text_inj in H as ->; auto.
Qed.

(** *** Fields of an audit line *)

Lemma dict_get_absent k (d : pydict) :
  ~ In k (map fst d) -> dict_get k d = None.
Proof.
  induction d as [|[k0 v0] d IH]; simpl; [reflexivity|]. intros H.
  destruct (String.eqb_spec k k0) as [->|_]; [exfalso; auto|]. auto.
Qed.

Lemma dict_get_update (extra : pydict) : forall (d : pydict) k,
  List.NoDup (map fst extra) ->
  dict_get k (dict_update d extra)
  = match dict_get k extra with
    | Some v => Some v
    | None => dict_get k d
    end.
Proof.
  unfold dict_update.
  induction extra as [|[k0 v0] extra IH]; intros d k Hnd; simpl;
    [reflexivity|].
  simpl in Hnd. apply List.NoDup_cons_iff in Hnd as [Hk0 Hnd].
  rewrite (IH _ _ Hnd), dict_get_set.
  destruct (String.eqb_spec k k0) as [->|_]; [|reflexivity].
  rewrite (dict_get_absent _ _ Hk0). reflexivity.
Qed.

(** X18. In an audit line the keys of [extra] win over the fixed fields:
    a field is read as [extra] gives it, and as the call's time, action or
    id only where [extra] has no such key.  The lines of [put] and
    [mark_used], whose [extra] has the one key "classification" or
    "result", always carry the call's own time, action and id. *)
Theorem audit_extra_overrides (now : Z) (action i k : string)
    (extra : pydict) :
  List.NoDup (map fst extra) ->
  dict_get k (audit_line now action i (Some extra))
  = match dict_get k extra with
    | Some v => Some v
    | None => dict_get k (audit_fields now action i)
    end
  /\ (forall c, dict_get "action" (proposed_line now c)
                = Some (JStr "proposed")
                /\ dict_get "confirmation_id" (proposed_line now c)
                   = Some (JStr (confirmation_id c))
                /\ dict_get "ts" (proposed_line now c) = Some (JInt now))
  /\ (forall c result,
        dict_get "action" (executed_line now c result)
        = Some (JStr "executed")
        /\ dict_get "confirmation_id" (executed_line now c result)
           = Some (JStr (confirmation_id c))
        /\ dict_get "ts" (executed_line now c result) = Some (JInt now)).
Proof.
  intros Hnd. split; [|split; intros; repeat split].
  unfold audit_line. fold (audit_fields now action i).
  apply dict_get_update, Hnd.
Qed.

(** *** Lines *)

Lemma filter_all {A} (l : list A) : List.filter (fun _ => true) l = l.
Proof. induction l as [|a l IH]; simpl; [|rewrite IH]; reflexivity. Qed.

Lemma boundary_len_zero_byte c s :
  boundary_len (String c s) = 0%nat -> line_break_byte c = false.
Proof.
  unfold boundary_len, line_break_byte.
  destruct (byte_is 10 c), (byte_is 11 c), (byte_is 12 c), (byte_is 28 c),
    (byte_is 29 c), (byte_is 30 c); simpl; try discriminate.
  destruct (byte_is 13 c); [|reflexivity].
  destruct s as [|c' s]; [discriminate|].
  destruct (byte_is 10 c'); discriminate.
Qed.

Lemma forallb_rev {A} (f : A -> bool) l :
  forallb f l = true -> forallb f (rev l) = true.
Proof.
  rewrite !forallb_forall. intros H x Hx. apply H, in_rev, Hx.
Qed.

Lemma splitlines_from_no_break s : forall skip cur,
  forallb (fun a => negb (line_break_byte a)) cur = true ->
  forallb (fun ln => forallb (fun a => negb (line_break_byte a))
                             (list_ascii_of_string ln))
          (splitlines_from skip cur s) = true.
Proof.
  assert (Hline : forall cur,
            forallb (fun a => negb (line_break_byte a)) cur = true ->
            forallb (fun a => negb (line_break_byte a))
                    (list_ascii_of_string (string_of_rev cur)) = true).
  { intros cur H. unfold string_of_rev.
    rewrite list_ascii_of_string_of_list_ascii. apply forallb_rev, H. }
  induction s as [|c s IH]; intros skip cur Hcur.
  - simpl. destruct cur; [reflexivity|].
    cbn [forallb]. rewrite (Hline _ Hcur). reflexivity.
  - cbn [splitlines_from]. destruct skip as [|k]; [|apply IH, Hcur].
    destruct (boundary_len (String c s)) as [|k] eqn:Hb.
    + apply IH. cbn [forallb].
      rewrite (boundary_len_zero_byte _ _ Hb), Hcur. reflexivity.
    + cbn [forallb]. rewrite (Hline _ Hcur). apply IH. reflexivity.
Qed.

(** X19. No line that [clean_lines] returns holds a line feed, a carriage
    return or another one-byte line boundary, and empty lines are kept:
    the lines are those of [splitlines], all of them. *)
Theorem clean_lines_no_break (s : string) :
  clean_lines s = splitlines s
  /\ forallb (fun ln => forallb (fun a => negb (line_break_byte a))
                                (list_ascii_of_string ln))
             (clean_lines s) = true.
Proof.
  unfold clean_lines. rewrite filter_all. split; [reflexivity|].
  apply splitlines_from_no_break. reflexivity.
Qed.

Lemma boundary_len_before_newline c a rest :
  boundary_len (String c a) = 0%nat ->
  boundary_len (String c (String.append a (String.append newline rest)))
  = 0%nat.
Proof.
  unfold boundary_len, newline.
  destruct (_ || _); [discriminate|].
  destruct (byte_is 13 c).
  { destruct a as [|c' a]; [discriminate|].
    destruct (byte_is 10 c'); discriminate. }
  destruct (byte_is 194 c).
  { destruct a as [|c' a]; rewrite ?append_cons, ?append_nil; auto. }
  destruct (byte_is 226 c); [|reflexivity].
  destruct a as [|c' [|c'' a]]; rewrite ?append_cons, ?append_nil; auto.
  - destruct rest; reflexivity.
  - intros _. destruct (byte_is 128 c'); reflexivity.
Qed.

Lemma splitlines_from_line a : forall cur rest,
  break_free a = true ->
  splitlines_from 0 cur (String.append a (String.append newline rest))
  = string_of_rev (rev (list_ascii_of_string a) ++ cur)
    :: splitlines_from 0 [] rest.
Proof.
  induction a as [|c a IH]; intros cur rest Hfree.
  - reflexivity.
  - cbn [break_free] in Hfree. apply andb_prop in Hfree as [Hb Hfree].
    apply Nat.eqb_eq in Hb.
    rewrite append_cons. cbn [splitlines_from].
    rewrite (boundary_len_before_newline _ _ rest Hb).
    rewrite (IH _ _ Hfree). cbn [list_ascii_of_string rev].
    rewrite <- app_assoc. reflexivity.
Qed.

Lemma splitlines_from_last a : forall cur,
  break_free a = true ->
  a <> EmptyString ->
  splitlines_from 0 cur a
  = [string_of_rev (rev (list_ascii_of_string a) ++ cur)].
Proof.
  induction a as [|c a IH]; intros cur Hfree Hne; [congruence|].
  cbn [break_free] in Hfree. apply andb_prop in Hfree as [Hb Hfree].
  apply Nat.eqb_eq in Hb.
  cbn [splitlines_from]. rewrite Hb.
  cbn [list_ascii_of_string rev]. rewrite <- app_assoc.
  destruct a as [|c' a]; [reflexivity|].
  apply IH; [exact Hfree|discriminate].
Qed.

Lemma string_of_rev_rev a :
  string_of_rev (rev (list_ascii_of_string a) ++ []) = a.
Proof.
  unfold string_of_rev. rewrite app_nil_r, rev_involutive.
  apply string_of_list_ascii_of_string.
Qed.

(** X20. [clean_lines] undoes the newline join: for a vector of texts in
    which no line boundary starts, the last of them not empty, the lines
    of [_stable_cmd_text args] are [args], empty texts in the middle
    included. *)
Theorem clean_lines_of_joined (args : list string) :
  forallb break_free args = true ->
  (forall l a, args = l ++ [a] -> a <> EmptyString) ->
  clean_lines (_stable_cmd_text args) = args.
Proof.
  unfold clean_lines, splitlines, _stable_cmd_text. rewrite filter_all.
  induction args as [|a args IH]; intros Hfree Hlast; [reflexivity|].
  cbn [forallb] in Hfree. apply andb_prop in Hfree as [Ha Hfree].
  destruct args as [|b args].
  - cbn [String.concat].
    rewrite (splitlines_from_last a [] Ha (Hlast [] a eq_refl)).
    rewrite string_of_rev_rev. reflexivity.
  - rewrite concat_cons_cons, (splitlines_from_line a [] _ Ha).
    rewrite string_of_rev_rev. f_equal.
    apply IH; [exact Hfree|].
    intros l x Hl. apply (Hlast (a :: l) x). rewrite Hl. reflexivity.
Qed.

(** ** The properties on concrete stores *)

Lemma one_shot_enforcement_witness :
  get "abc" s1 = Returned (Some c0)
  /\ max_uses c0 = 1 /\ used c0 = 0
  /\ (exists c', get "abc" (fst (mark_used no_int_of_str 101 c0 [] s1))
                 = Returned (Some c')
                 /\ max_uses c' <= used c'
                 /\ forall t, can_use t c' = false).
Proof.
  assert (H : get "abc" s1 = Returned (Some c0)) by (vm_compute; reflexivity).
  split; [exact H|]. split; [reflexivity|]. split; [reflexivity|].
  exact (proj1 (proj1 (one_shot_enforcement no_int_of_str "abc" c0 s1 H)
                  eq_refl eq_refl 101 c0 [] eq_refl)).
Defined.

Lemma eligibility_predicates_witness :
  is_expired 500 c0 = true /\ can_use 500 c0 = false.
Proof.
  split; [reflexivity|].
  apply (proj1 (proj2 (proj2 (eligibility_predicates 500 c0)))).
  reflexivity.
Defined.

Lemma put_get_round_trip_witness :
  cmd_hash c0 = command_hash (args c0) /\ used c0 = 0
  /\ exists c', get (confirmation_id c0) (put 100 c0 new_store)
                = Returned (Some c')
                /\ preconditions c' = preconditions c0
                /\ cmd_hash c' = command_hash (args c')
                /\ used c' = 0.
Proof.
  split; [reflexivity|]. split; [reflexivity|].
  exact (proj2 (put_get_round_trip 100 c0 new_store) eq_refl eq_refl).
Defined.

Lemma audit_line_per_call_witness :
  follows_put [] ops_propose_execute = true
  /\ length (_audit (run no_int_of_str ops_propose_execute new_store)) = 2%nat.
Proof.
  split; [reflexivity|].
  exact (proj2 (audit_line_per_call no_int_of_str ops_propose_execute eq_refl)).
Defined.

Lemma used_counter_monotone_witness :
  get "abc" s1 = Returned (Some c0)
  /\ never_puts "abc" ops_no_reput
  /\ exists c', get "abc" (run no_int_of_str ops_no_reput s1)
                = Returned (Some c')
                /\ used c' = used c0 + marks "abc" ops_no_reput
                /\ used c0 <= used c'.
Proof.
  assert (H : get "abc" s1 = Returned (Some c0)) by (vm_compute; reflexivity).
  assert (N : never_puts "abc" ops_no_reput) by reflexivity.
  split; [exact H|]. split; [exact N|].
  destruct (used_counter_monotone no_int_of_str ops_no_reput "abc" c0 s1 H N)
    as (c' & Hg & Hu & Hle & _).
  exists c'. auto.
Defined.

Lemma proposed_line_has_record_witness :
  reachable no_int_of_str s1
  /\ In (proposed_line 100 c0) (_audit s1)
  /\ exists c, get "abc" s1 = Returned (Some c) /\ confirmation_id c = "abc"%string.
Proof.
  assert (R : reachable no_int_of_str s1) by (apply reach_put, reach_new).
  assert (I : In (proposed_line 100 c0) (_audit s1)) by (simpl; auto).
  split; [exact R|]. split; [exact I|].
  exact (proj1 (proposed_line_has_record no_int_of_str s1
                  (proposed_line 100 c0) "abc" R I eq_refl eq_refl)).
Defined.

Lemma mark_used_unknown_id_noop_witness :
  _db new_store !! confirmation_id c0 = None
  /\ mark_used no_int_of_str 101 c0 [] new_store = (new_store, Returned tt).
Proof.
  assert (H : _db new_store !! confirmation_id c0 = None) by reflexivity.
  split; [exact H|].
  exact (mark_used_unknown_id_noop no_int_of_str 101 c0 [] new_store H).
Defined.

Lemma confirmation_id_deterministic_witness :
  confirmation_id c1 = confirmation_id c2
  /\ String.length (confirmation_id c1) = 16%nat
  /\ get (confirmation_id c1)
         (put 1730000000 c2 (put 1730000000 c1 new_store))
     = Returned (Some c2)
  /\ _db (put 1730000000 c2 (put 1730000000 c1 new_store))
     = _db (put 1730000000 c2 new_store).
Proof.
  destruct (confirmation_id_deterministic
              "/r" "/r" 1730000000 1730000000
              ["commit"; "-m"; "a b"]%string ["commit"; "-m"; "a b"]%string
              1730000000 1730000000 c1 c2 new_store
              eq_refl eq_refl eq_refl eq_refl eq_refl)
    as (Hid & _ & Hlen & _ & Hget & Hdb).
  split; [reflexivity|]. split; [exact Hlen|]. split; [exact Hget|exact Hdb].
Defined.

(** *** Where the stated properties fail *)

(** C1 as stated: the token is not ineligible for good.  A [put] under
    its id after the [mark_used] stores the record with [used = 0] again,
    and [can_use] accepts it. *)
Lemma put_rearms_used_token :
  ~ (forall (int_of_str : string -> option Z) (now t : Z) (result : pydict)
            (i : string) (c cx c' : Confirmation) (s : FileConfirmationStore)
            (ops : list op),
       get i s = Returned (Some c) ->
       confirmation_id cx = i ->
       max_uses c = 1 -> used c = 0 ->
       get i (run int_of_str ops (fst (mark_used int_of_str now cx result s)))
       = Returned (Some c') ->
       can_use t c' = false).
Proof.
  intros H.
  specialize (H no_int_of_str 101 200 [] "abc"%string c0 c0 c0 s1
                [Put 102 c0]).
  assert (E : can_use 200 c0 = false).
  { apply H; try reflexivity; vm_compute; reflexivity. }
  vm_compute in E. discriminate E.
Qed.

(** C4 as stated: [mark_used] for an id the map does not hold appends no
    line, so a log after M [mark_used] calls can be shorter than N + M. *)
Lemma unknown_id_appends_no_line :
  ~ (forall (int_of_str : string -> option Z) (ops : list op),
       forallb (fun o => is_put o || is_mark_used o) ops = true ->
       length (_audit (run int_of_str ops new_store))
       = (calls_put ops + calls_mark_used ops)%nat).
Proof.
  intros H.
  specialize (H no_int_of_str [MarkUsed 101 c0 []] eq_refl).
  vm_compute in H. discriminate H.
Qed.

(** C5 as stated: a [put] under the id of a stored record replaces the
    record, its counter included; here a consumed token is put again. *)
Lemma put_resets_used_counter :
  ~ (forall (int_of_str : string -> option Z) (ops : list op) (i : string)
            (c c' : Confirmation) (s : FileConfirmationStore),
       get i s = Returned (Some c) ->
       get i (run int_of_str ops s) = Returned (Some c') ->
       used c <= used c').
Proof.
  intros H.
  specialize (H no_int_of_str [Put 102 c0] "abc"%string
                (with_used c0 1) c0
                (run no_int_of_str [Put 100 c0; MarkUsed 101 c0 []] new_store)).
  assert (H1 : used (with_used c0 1) <= used c0).
  { apply H; vm_compute; reflexivity. }
  simpl in H1. lia.
Qed.



(** *** The further properties on concrete stores and texts *)

Lemma falsy_value_is_no_record_witness :
  py_truthy (data_get (confirmation_id c0) (_load s_empty_object)) = false
  /\ get "abc" s_empty_object = Returned None
  /\ mark_used no_int_of_str 101 c0 [] s_empty_object
     = (s_empty_object, Returned tt).
Proof.
  assert (H : py_truthy (data_get (confirmation_id c0) (_load s_empty_object))
              = false) by reflexivity.
  split; [exact H|].
  exact (falsy_value_is_no_record no_int_of_str 101 c0 [] s_empty_object H).
Defined.

Lemma non_object_value_raises_witness :
  _db s_number !! confirmation_id c0 = Some (JInt 5)
  /\ get "abc" s_number = Raised AttributeError
  /\ snd (mark_used no_int_of_str 101 c0 [] s_number) = Raised AttributeError.
Proof.
  assert (H : _db s_number !! confirmation_id c0 = Some (JInt 5))
    by reflexivity.
  split; [exact H|].
  exact (non_object_value_raises no_int_of_str 101 c0 [] s_number (JInt 5)
           H eq_refl eq_refl).
Defined.

Lemma record_without_optional_fields_witness :
  _db s_required_only !! confirmation_id c0
  = Some (JDict (required_items c0))
  /\ get "abc" s_required_only = Returned (Some (with_defaults c0))
  /\ get "abc" (fst (mark_used no_int_of_str 101 c0 [] s_required_only))
     = Returned (Some (with_used (with_defaults c0) 1)).
Proof.
  assert (H : _db s_required_only !! confirmation_id c0
              = Some (JDict (required_items c0))) by reflexivity.
  split; [exact H|].
  exact (record_without_optional_fields no_int_of_str 101 [] c0 c0
           s_required_only H).
Defined.

Lemma unexpected_or_missing_field_raises_witness :
  _db s_extra_key !! "abc"%string = Some (JDict extra_key_object)
  /\ extra_key_object <> []
  /\ forallb (fun kv => mem_str (fst kv) Confirmation_fields)
             extra_key_object = false
  /\ get "abc" s_extra_key = Raised TypeError.
Proof.
  assert (H : _db s_extra_key !! "abc"%string = Some (JDict extra_key_object))
    by reflexivity.
  assert (N : extra_key_object <> []) by discriminate.
  assert (B : forallb (fun kv => mem_str (fst kv) Confirmation_fields)
                      extra_key_object = false) by reflexivity.
  split; [exact H|]. split; [exact N|]. split; [exact B|].
  exact (unexpected_or_missing_field_raises "abc" extra_key_object
           s_extra_key H N (or_introl B)).
Defined.

Lemma other_ids_untouched_witness :
  "abc"%string <> confirmation_id other
  /\ get "abc" (put 102 other s1) = get "abc" s1
  /\ get "abc" (fst (mark_used no_int_of_str 103 other [] s1)) = get "abc" s1.
Proof.
  assert (H : "abc"%string <> confirmation_id other) by discriminate.
  split; [exact H|].
  exact (other_ids_untouched no_int_of_str 102 other [] "abc" s1 H).
Defined.

Lemma records_never_deleted_witness :
  is_Some (_db s1 !! "abc"%string)
  /\ is_Some (_db (run no_int_of_str ops_no_reput s1) !! "abc"%string).
Proof.
  assert (H : is_Some (_db s1 !! "abc"%string)) by (eexists; reflexivity).
  split; [exact H|].
  exact (proj1 (records_never_deleted no_int_of_str ops_no_reput s1) "abc"%string H).
Defined.

Lemma record_fields_stable_witness :
  get "abc" s1 = Returned (Some c0)
  /\ never_puts "abc" ops_no_reput
  /\ get "abc" (run no_int_of_str ops_no_reput s1)
     = Returned (Some (with_used c0 (used c0 + marks "abc" ops_no_reput))).
Proof.
  assert (H : get "abc" s1 = Returned (Some c0)) by (vm_compute; reflexivity).
  assert (N : never_puts "abc" ops_no_reput) by reflexivity.
  split; [exact H|]. split; [exact N|].
  exact (proj1 (record_fields_stable no_int_of_str ops_no_reput "abc" c0 s1
                  H N)).
Defined.

Lemma mark_used_has_no_ceiling_witness :
  get "abc" s_used = Returned (Some (with_used c0 1))
  /\ max_uses (with_used c0 1) <= used (with_used c0 1)
  /\ exists c', get "abc" (fst (mark_used no_int_of_str 102 c0 [] s_used))
                = Returned (Some c')
                /\ used c' = used (with_used c0 1) + 1
                /\ max_uses c' < used c'.
Proof.
  assert (H : get "abc" s_used = Returned (Some (with_used c0 1)))
    by (vm_compute; reflexivity).
  assert (M : max_uses (with_used c0 1) <= used (with_used c0 1))
    by (simpl; lia).
  split; [exact H|]. split; [exact M|].
  exact (proj2 (proj2 (mark_used_has_no_ceiling no_int_of_str 102 [] "abc"
                         (with_used c0 1) c0 s_used H eq_refl M))).
Defined.

Lemma usable_iff_uses_left_witness :
  get "abc" s1 = Returned (Some c0)
  /\ never_puts "abc" ops_no_reput
  /\ exists c', get "abc" (run no_int_of_str ops_no_reput s1)
                = Returned (Some c')
                /\ (can_use 200 c' = true
                    <-> is_expired 200 c0 = false
                        /\ used c0 + marks "abc" ops_no_reput < max_uses c0).
Proof.
  assert (H : get "abc" s1 = Returned (Some c0)) by (vm_compute; reflexivity).
  assert (N : never_puts "abc" ops_no_reput) by reflexivity.
  split; [exact H|]. split; [exact N|].
  exact (usable_iff_uses_left no_int_of_str ops_no_reput "abc" c0 s1 200 H N).
Defined.

Lemma reachable_store_reads_witness :
  reachable no_int_of_str s1
  /\ (get "abc" s1 = Returned None
      \/ exists c', get "abc" s1 = Returned (Some c')
                    /\ confirmation_id c' = "abc"%string)
  /\ snd (mark_used no_int_of_str 101 c0 [] s1) = Returned tt.
Proof.
  assert (R : reachable no_int_of_str s1) by (apply reach_put, reach_new).
  split; [exact R|].
  exact (reachable_store_reads no_int_of_str s1 "abc" 101 c0 [] R).
Defined.

Lemma reachable_log_lines_witness :
  reachable no_int_of_str s1
  /\ In (proposed_line 100 c0) (_audit s1)
  /\ exists t i,
       dict_get "ts" (proposed_line 100 c0) = Some (JInt t)
       /\ dict_get "confirmation_id" (proposed_line 100 c0) = Some (JStr i)
       /\ (dict_get "action" (proposed_line 100 c0) = Some (JStr "proposed")
           \/ dict_get "action" (proposed_line 100 c0)
              = Some (JStr "executed"))
       /\ exists c, get i s1 = Returned (Some c) /\ confirmation_id c = i.
Proof.
  assert (R : reachable no_int_of_str s1) by (apply reach_put, reach_new).
  assert (I : In (proposed_line 100 c0) (_audit s1)) by (simpl; auto).
  split; [exact R|]. split; [exact I|].
  exact (reachable_log_lines no_int_of_str s1 (proposed_line 100 c0) R I).
Defined.

Lemma puts_commute_on_map_witness :
  confirmation_id c0 <> confirmation_id other
  /\ _db (put 102 other (put 100 c0 new_store))
     = _db (put 100 c0 (put 102 other new_store)).
Proof.
  assert (H : confirmation_id c0 <> confirmation_id other) by discriminate.
  split; [exact H|].
  exact (proj1 (puts_commute_on_map 100 102 c0 other new_store H)).
Defined.

Lemma eligibility_over_time_witness :
  400 <= 401
  /\ (can_use 401 c0 = true -> can_use 400 c0 = true)
  /\ is_expired 400 c0 = false /\ is_expired 401 c0 = true.
Proof.
  assert (H : 400 <= 401) by lia.
  split; [exact H|].
  exact (proj2 (eligibility_over_time c0 400 401 H)).
Defined.

Lemma stable_text_unambiguous_witness :
  Forall no_newline ["commit"; "-m"; "a b"]%string
  /\ _stable_cmd_text ["commit"; "-m"; "a b"]%string
     = _stable_cmd_text (args c0)
  /\ ["commit"; "-m"; "a b"]%string = args c0.
Proof.
  assert (F : Forall no_newline ["commit"; "-m"; "a b"]%string).
  { repeat constructor; unfold no_newline; simpl; intuition discriminate. }
  assert (E : _stable_cmd_text ["commit"; "-m"; "a b"]%string
              = _stable_cmd_text (args c0)) by reflexivity.
  split; [exact F|]. split; [exact E|].
  apply (stable_text_unambiguous ["commit"; "-m"; "a b"]%string (args c0));
    [discriminate|discriminate|exact F|exact F|exact E].
Defined.

Lemma seed_unambiguous_witness :
  no_newline "/r"
  /\ Forall no_newline ["status"]%string
  /\ confirmation_seed "/r" 5 ["status"]%string
     = confirmation_seed "/r" (2 + 3) ["status"]%string
  /\ 5 = 2 + 3.
Proof.
  assert (R : no_newline "/r")
    by (unfold no_newline; simpl; intuition discriminate).
  assert (F : Forall no_newline ["status"]%string).
  { repeat constructor; unfold no_newline; simpl; intuition discriminate. }
  assert (E : confirmation_seed "/r" 5 ["status"]%string
              = confirmation_seed "/r" (2 + 3) ["status"]%string)
    by reflexivity.
  split; [exact R|]. split; [exact F|]. split; [exact E|].
  refine (proj1 (proj2 (proj1 (seed_unambiguous "/r" "/r" 5 (2 + 3)
                   ["status"]%string ["status"]%string R R _ _ F F E))));
    discriminate.
Defined.

Lemma audit_extra_overrides_witness :
  List.NoDup (map fst forged_extra)
  /\ dict_get "action" (audit_line 100 "proposed" "abc" (Some forged_extra))
     = Some (JStr "forged").
Proof.
  assert (N : List.NoDup (map fst forged_extra)).
  { simpl. constructor; [intros []|constructor]. }
  split; [exact N|].
  exact (proj1 (audit_extra_overrides 100 "proposed" "abc" "action"
                  forged_extra N)).
Defined.

Lemma clean_lines_of_joined_witness :
  forallb break_free ["commit"; "-m"; "a b"]%string = true
  /\ clean_lines (_stable_cmd_text ["commit"; "-m"; "a b"]%string)
     = ["commit"; "-m"; "a b"]%string.
Proof.
  assert (F : forallb break_free ["commit"; "-m"; "a b"]%string = true)
    by reflexivity.
  split; [exact F|].
  apply (clean_lines_of_joined ["commit"; "-m"; "a b"]%string F).
  intros l a E.
  destruct l as [|x [|y [|z l]]]; simpl in E; try congruence.
  injection E as _ _ _ E. destruct l; discriminate.
Defined.
